(** * SmartHomeScripts: the adaptive controller-performance estimator

    A shallow embedding of the ioBroker heating scripts of the repository:

    - the learning script ("Heating Optimization (Learning Script)"), whose
      [main] queries the flow/return spread history, computes a stability
      score and adjusts the persisted controller performance factor;
    - the room script ("Universal, intelligent single-room heating
      control"), whose [main] applies the learned factor to the weather
      compensation of the room setpoint.;
    - the weather analysis script, the heating-period script and the
      heating-curve analysis script, and the rest of the room script
      (modules, limits, thermostats, rate limiter).

    Numbers.  The scripts compute with JavaScript numbers.  The embedding
    reads every finite number as an exact rational ([Q]); equalities between
    computed numbers are therefore stated with [==].  The only operation of
    the scripts that can leave the finite numbers in this reading is a
    division by zero, so [Js.div] is partial and the computations that use it
    live in the option monad.

    The estimator of the learning script is embedded a second time, in
    [Learning64], over [Binary64]: binary64 numbers with rounding to
    nearest, overflow to the infinities, and NaN.  What is said about the
    stability score of a window is proved in both readings. *)

From Stdlib Require Import QArith Qabs Qround Lqa Lia List.
From Stdlib Require Import Sorted DecimalString.
From Stdlib Require Import Qpower PrimFloat FloatOps SpecFloat Uint63.
From stdpp Require Import gmap strings.

Open Scope Q_scope.

(** ** JavaScript values and operators used by the scripts *)

Module Js.

(** Values a numeric or boolean datapoint can hold ([state.val]). *)
Inductive value : Type :=
| Null
| Bool (b : bool)
| Num (q : Q).

(** ToBoolean. *)
Definition truthy (v : value) : bool :=
  match v with
  | Null => false
  | Bool b => b
  | Num q => negb (Qeq_bool q 0)
  end.

(** ToNumber. *)
Definition toNumber (v : value) : Q :=
  match v with
  | Null => 0
  | Bool true => 1
  | Bool false => 0
  | Num q => q
  end.

(** [typeof v === 'number'] *)
Definition isNumber (v : value) : bool :=
  match v with
  | Num _ => true
  | _ => false
  end.

(** [a || d] for a numeric default [d], read as a number. *)
Definition orElse (a : value) (d : Q) : Q :=
  if truthy a then toNumber a else d.

(** [x < y] and [x <= y] on numbers. *)
Definition ltb (x y : Q) : bool := negb (Qle_bool y x).
Definition leb (x y : Q) : bool := Qle_bool x y.

(** [a / b].  A zero divisor yields NaN or an infinity in JavaScript, which
    is no rational number: the embedding returns [None] there. *)
Definition div (a b : Q) : option Q :=
  if Qeq_bool b 0 then None else Some (a / b).

(** [arr.length] as a number. *)
Definition len {A : Type} (arr : list A) : Q :=
  inject_Z (Z.of_nat (length arr)).

(** [arr.reduce((a, b) => a + b, 0)] *)
Definition sum (arr : list Q) : Q := fold_left Qplus arr 0.

(** [arr.slice(-n)]: the last [n] elements; [slice(-0)] is [slice(0)],
    the whole array. *)
Definition sliceLast {A : Type} (n : nat) (arr : list A) : list A :=
  match n with
  | O => arr
  | _ => skipn (length arr - n) arr
  end.

(** [parseFloat(x.toFixed(d))]: [x] rounded to [d] decimals, ties away
    from zero.  The result is stored in lowest terms. *)
Definition roundHalfUp (y : Q) : Z := Qfloor (y + (1 # 2)).

Definition toFixed (d : nat) (x : Q) : Q :=
  let scale := inject_Z (10 ^ Z.of_nat d) in
  if ltb x 0
  then Qred (- (inject_Z (roundHalfUp (- x * scale)) / scale))
  else Qred (inject_Z (roundHalfUp (x * scale)) / scale).

End Js.

(** ** The learning script *)

Module Learning.

(** The [CONFIG] object (the fields the learning cycle reads). *)
Record Config : Type := {
  simulationAktiv : bool;
  stabilityCalculationHours : nat;
  basisLernrate : Q;
  minSpreizungForLearning : Q;
  spreizungSensorId : string;
  svHeizperiodeId : string;
  reglerleistungId : string;
  systemStabilitaetId : string;
  simHeizperiode : bool;
  simAktuelleSpreizung : Q
}.

Definition CONFIG : Config := {|
  simulationAktiv := false;
  stabilityCalculationHours := 3;
  basisLernrate := 0.02;
  minSpreizungForLearning := 2.0;
  spreizungSensorId := "hm-rpc.0.00000000000000.3.ACTUAL_TEMPERATURE";
  svHeizperiodeId := "hm-rega.0.Heizung.Heizperiode";
  reglerleistungId := "0_userdata.0.Heizung.Optimierung.Reglerleistung";
  systemStabilitaetId := "0_userdata.0.Heizung.Optimierung.SystemStabilitaet";
  simHeizperiode := true;
  simAktuelleSpreizung := 5.5
|}.

(** *** Step 3: system stability of a window *)

Record Stats : Type := {
  mean : Q;
  variance : Q;
  stability : Q
}.

Definition squaredDeviations (m : Q) (stabilityWindow : list Q) : list Q :=
  map (fun x => (x - m) ^ 2) stabilityWindow.

Definition windowStats (stabilityWindow : list Q) : option Stats :=
  let sum := Js.sum stabilityWindow in
  m ← Js.div sum (Js.len stabilityWindow);
  v ← Js.div (Js.sum (squaredDeviations m stabilityWindow))
             (Js.len stabilityWindow);
  s ← Js.div 1.0 (1.0 + v);
  Some {| mean := m; variance := v; stability := s |}.

(** *** Step 4: learning logic *)

Inductive AdjustmentCase : Type :=
| Case1_SystemSluggishUnstable
| Case2_SystemOverreacting
| Case3_SystemInOptimalRange
| DefaultConvergence.

(** The if / else-if chain of [main]; the result before the hard limits. *)
Definition adjust (cfg : Config) (avg3h stability newReglerleistung : Q)
  : AdjustmentCase * Q :=
  if Js.ltb avg3h 7.0 && Js.ltb stability 0.4 then
    (Case1_SystemSluggishUnstable,
     newReglerleistung + ((7.0 - avg3h) / 7.0) * (basisLernrate cfg * 2.0))
  else if Js.ltb 16.0 avg3h && Js.ltb 0.6 stability then
    (Case2_SystemOverreacting, newReglerleistung * 0.95)
  else if Js.leb 8.0 avg3h && Js.leb avg3h 12.0 && Js.ltb 0.7 stability then
    (Case3_SystemInOptimalRange, newReglerleistung * 0.99 + 0.01)
  else
    (DefaultConvergence,
     newReglerleistung
     + (1.0 - newReglerleistung) * (basisLernrate cfg * stability)).

(** The hard limits: two successive [if]s. *)
Definition hardLimits (newReglerleistung : Q) : Q :=
  let r := if Js.ltb newReglerleistung 0.3 then 0.3 else newReglerleistung in
  if Js.ltb 1.7 r then 1.7 else r.

(** One estimator invocation: steps 3 and 4 of [main] on a window and the
    previous factor. *)
Record Estimate : Type := {
  estStability : Q;
  estReglerleistung : Q;
  estCase : AdjustmentCase
}.

Definition estimate (cfg : Config) (stabilityWindow : list Q)
           (previous : Q) : option Estimate :=
  st ← windowStats stabilityWindow;
  let '(c, r) := adjust cfg (mean st) (stability st) previous in
  Some {| estStability := stability st;
          estReglerleistung := hardLimits r;
          estCase := c |}.

(** *** The same chain with its literals abstracted

    [main] hard-codes the thresholds of the three cases.  To speak about
    other threshold configurations, [adjustWith] is the same if / else-if
    chain with every literal of a condition or adjustment taken from a
    record; [sourceThresholds] holds the literals of the script. *)

Record Thresholds : Type := {
  lowMeanThreshold : Q;
  lowStabilityThreshold : Q;
  aggressiveMultiplier : Q;
  highMeanThreshold : Q;
  highStabilityThreshold : Q;
  dampingFactor : Q;
  optimalLow : Q;
  optimalHigh : Q;
  optimalStabilityThreshold : Q;
  convergenceWeight : Q;
  convergenceOffset : Q
}.

Definition sourceThresholds : Thresholds := {|
  lowMeanThreshold := 7.0;
  lowStabilityThreshold := 0.4;
  aggressiveMultiplier := 2.0;
  highMeanThreshold := 16.0;
  highStabilityThreshold := 0.6;
  dampingFactor := 0.95;
  optimalLow := 8.0;
  optimalHigh := 12.0;
  optimalStabilityThreshold := 0.7;
  convergenceWeight := 0.99;
  convergenceOffset := 0.01
|}.

(** A threshold configuration in which cases 1 and 3 overlap. *)
Definition overlappingThresholds : Thresholds := {|
  lowMeanThreshold := 11.0;
  lowStabilityThreshold := 0.9;
  aggressiveMultiplier := 2.0;
  highMeanThreshold := 16.0;
  highStabilityThreshold := 0.6;
  dampingFactor := 0.95;
  optimalLow := 8.0;
  optimalHigh := 12.0;
  optimalStabilityThreshold := 0.6;
  convergenceWeight := 0.99;
  convergenceOffset := 0.01
|}.

Section Chain.
Variable T : Thresholds.
Variable cfg : Config.

Definition condA (avg3h stability : Q) : bool :=
  Js.ltb avg3h (lowMeanThreshold T)
  && Js.ltb stability (lowStabilityThreshold T).

Definition condB (avg3h stability : Q) : bool :=
  Js.ltb (highMeanThreshold T) avg3h
  && Js.ltb (highStabilityThreshold T) stability.

Definition condC (avg3h stability : Q) : bool :=
  Js.leb (optimalLow T) avg3h && Js.leb avg3h (optimalHigh T)
  && Js.ltb (optimalStabilityThreshold T) stability.

Definition adjustmentA (avg3h newReglerleistung : Q) : Q :=
  newReglerleistung
  + ((lowMeanThreshold T - avg3h) / lowMeanThreshold T)
    * (basisLernrate cfg * aggressiveMultiplier T).

Definition adjustmentB (newReglerleistung : Q) : Q :=
  newReglerleistung * dampingFactor T.

Definition adjustmentC (newReglerleistung : Q) : Q :=
  newReglerleistung * convergenceWeight T + convergenceOffset T.

Definition adjustmentDefault (stability newReglerleistung : Q) : Q :=
  newReglerleistung
  + (1.0 - newReglerleistung) * (basisLernrate cfg * stability).

Definition adjustWith (avg3h stability newReglerleistung : Q)
  : AdjustmentCase * Q :=
  if condA avg3h stability then
    (Case1_SystemSluggishUnstable, adjustmentA avg3h newReglerleistung)
  else if condB avg3h stability then
    (Case2_SystemOverreacting, adjustmentB newReglerleistung)
  else if condC avg3h stability then
    (Case3_SystemInOptimalRange, adjustmentC newReglerleistung)
  else
    (DefaultConvergence, adjustmentDefault stability newReglerleistung).

Definition estimateWith (stabilityWindow : list Q) (previous : Q)
  : option Estimate :=
  st ← windowStats stabilityWindow;
  let '(c, r) := adjustWith (mean st) (stability st) previous in
  Some {| estStability := stability st;
          estReglerleistung := hardLimits r;
          estCase := c |}.
End Chain.

(** *** Step 2: the history query *)

(** One sample of the reply of [getHistory]; [val] may be [null]. *)
Record Item : Type := {
  ts : Z;
  val : option Q
}.

(** What [await sendToAsync(...)] can give: the promise rejects (or the
    reply is no object), or a reply object with an [error] field and a
    [result] field, either of which may be missing. *)
Inductive Reply : Type :=
| Rejected
| Answer (error : option string) (result : option (list Item)).

(** [v !== null && v >= 0] *)
Definition valid (v : option Q) : bool :=
  match v with
  | None => false
  | Some q => Js.leb 0 q
  end.

(** [result.result.map(item => item.val).filter(...)], the array without
    its [null]s. *)
Fixpoint sanitize (vals : list (option Q)) : list Q :=
  match vals with
  | [] => []
  | v :: rest =>
      if valid v
      then match v with
           | Some q => q :: sanitize rest
           | None => sanitize rest
           end
      else sanitize rest
  end.

(** The [try] block: [None] when it throws. *)
Definition queryHistory (r : Reply) : option (list Q) :=
  match r with
  | Rejected => None
  | Answer error result =>
      match error with
      | Some (String _ _) => None
      | _ =>
          match result with
          | None => None
          | Some [] => None
          | Some items => Some (sanitize (map val items))
          end
      end
  end.

(** The replies on which a cycle is to be skipped: the query fails, carries
    an error, carries no or empty data, or fewer than 3 of its samples are
    valid. *)
Inductive SkipsCycle : Reply -> Prop :=
| skip_rejected : SkipsCycle Rejected
| skip_error (c : Ascii.ascii) (msg : string) (result : option (list Item)) :
    SkipsCycle (Answer (Some (String c msg)) result)
| skip_no_data (error : option string) : SkipsCycle (Answer error None)
| skip_empty (error : option string) : SkipsCycle (Answer error (Some []))
| skip_few (error : option string) (items : list Item) :
    (length (List.filter (fun item => valid (val item)) items) < 3)%nat ->
    SkipsCycle (Answer error (Some items)).

(** *** [main] *)

Inductive Outcome : Type :=
| HeatingPeriodOff
| SpreadBelowThreshold
| QueryError
| NotEnoughData (n : nat)
| NotANumber
| Learned (e : Estimate).

(** [getStateAsync(id)]: the state object, or nothing. *)
Definition getState (store : gmap string Js.value) (id : string)
  : option Js.value := store !! id.

(** [setStateAsync(id, v, true)] *)
Definition setState (store : gmap string Js.value) (id : string)
           (v : Js.value) : gmap string Js.value := <[id := v]> store.

(** Step 5: both writes, skipped in simulation. *)
Definition writeResults (cfg : Config) (store : gmap string Js.value)
           (e : Estimate) : gmap string Js.value :=
  if simulationAktiv cfg then store
  else
    let store1 :=
      setState store (systemStabilitaetId cfg)
               (Js.Num (Js.toFixed 4 (estStability e))) in
    setState store1 (reglerleistungId cfg)
             (Js.Num (Js.toFixed 4 (estReglerleistung e))).

(** Step 4, its first two lines: the persisted factor, or 1.0 when the
    state does not exist. *)
Definition currentReglerleistung (cfg : Config)
           (store : gmap string Js.value) : Q :=
  match getState store (reglerleistungId cfg) with
  | Some v => Js.toNumber v
  | None => 1.0
  end.

(** One run of [main] against the state store and the reply of the history
    query.  [NotANumber] stands for a division by zero in step 3, where the
    script would go on with NaN (see [main_is_a_number]). *)
Definition main (cfg : Config) (store : gmap string Js.value) (reply : Reply)
  : gmap string Js.value * Outcome :=
  let heizperiodeAktiv :=
    if simulationAktiv cfg then Js.Bool (simHeizperiode cfg)
    else match getState store (svHeizperiodeId cfg) with
         | Some v => v
         | None => Js.Bool false
         end in
  let aktuelleSpreizung :=
    if simulationAktiv cfg then Js.Num (simAktuelleSpreizung cfg)
    else match getState store (spreizungSensorId cfg) with
         | Some v => v
         | None => Js.Num 0
         end in
  if negb (Js.truthy heizperiodeAktiv) then (store, HeatingPeriodOff)
  else if negb (Js.isNumber aktuelleSpreizung)
          || Js.ltb (Js.toNumber aktuelleSpreizung)
                    (minSpreizungForLearning cfg)
  then (store, SpreadBelowThreshold)
  else
    match queryHistory reply with
    | None => (store, QueryError)
    | Some historyData =>
        if (length historyData <? 3)%nat
        then (store, NotEnoughData (length historyData))
        else
          let stabilityWindow :=
            Js.sliceLast (stabilityCalculationHours cfg * 2) historyData in
          let newReglerleistung := currentReglerleistung cfg store in
          match estimate cfg stabilityWindow newReglerleistung with
          | None => (store, NotANumber)
          | Some e => (writeResults cfg store e, Learned e)
          end
    end.

End Learning.

(** ** The room script *)

Module Room.

(** The [CONFIG] object (the fields read up to the weather compensation). *)
Record Config : Type := {
  nachtschaltungNutzen : bool;
  tuerSensorNutzen : bool;
  tempFensterOffen : Q;
  tempHeizperiodeAus : Q;
  aussenTempNeutral : Q;
  heizkurvenfaktor : Q;
  idHeizPeriode : string;
  idAnwesenheit : string;
  idNachtschaltung : string;
  idSollTempAnwesend : string;
  idSollTempAbwesend : string;
  idReglerleistung : string;
  idsFensterKontakte : list string;
  idTuerSensor : string;
  idAussenTempSensor : string
}.

Definition CONFIG : Config := {|
  nachtschaltungNutzen := true;
  tuerSensorNutzen := true;
  tempFensterOffen := 12.0;
  tempHeizperiodeAus := 4.5;
  aussenTempNeutral := 12.0;
  heizkurvenfaktor := 0.25;
  idHeizPeriode := "0_userdata.0.Heizung.Allgemein.HeizperiodeAktiv";
  idAnwesenheit := "0_userdata.0.Anwesenheit.Status";
  idNachtschaltung := "0_userdata.0.System.Nachtschaltung.Aktiv";
  idSollTempAnwesend := "0_userdata.0.Heizung.sollTempAnwesend";
  idSollTempAbwesend := "0_userdata.0.Heizung.sollTempAbwesend";
  idReglerleistung := "0_userdata.0.Heizung.Optimierung.Reglerleistung";
  idsFensterKontakte := ["hm-rpc.0.00000000000000.1.STATE"];
  idTuerSensor := "hm-rpc.0.00000000000000.1.STATE";
  idAussenTempSensor := "hm-rpc.0.00000000000000.1.ACTUAL_TEMPERATURE"
|}.

(** 2.1: the collected [states] object. *)
Record States : Type := {
  heizPeriode : Js.value;
  anwesenheit : Js.value;
  nachtschaltung : Js.value;
  sollTempAnwesend : Js.value;
  sollTempAbwesend : Js.value;
  reglerleistung : Js.value;
  fensterKontakte : list Js.value;
  tuerSensor : Js.value;
  aussenTempSensor : Js.value
}.

(** [state ? state.val : null] *)
Definition fetch (store : gmap string Js.value) (id : string) : Js.value :=
  match store !! id with
  | Some v => v
  | None => Js.Null
  end.

Definition collect (cfg : Config) (store : gmap string Js.value) : States := {|
  heizPeriode := fetch store (idHeizPeriode cfg);
  anwesenheit := fetch store (idAnwesenheit cfg);
  nachtschaltung := fetch store (idNachtschaltung cfg);
  sollTempAnwesend := fetch store (idSollTempAnwesend cfg);
  sollTempAbwesend := fetch store (idSollTempAbwesend cfg);
  reglerleistung := fetch store (idReglerleistung cfg);
  fensterKontakte := map (fetch store) (idsFensterKontakte cfg);
  tuerSensor := fetch store (idTuerSensor cfg);
  aussenTempSensor := fetch store (idAussenTempSensor cfg)
|}.

(** 2.2: plausibility of the outdoor sensor. *)
Definition aussenSensorOK (states : States) : bool :=
  match aussenTempSensor states with
  | Js.Null => false
  | v => Js.ltb (-30.0) (Js.toNumber v) && Js.ltb (Js.toNumber v) 60.0
  end.

(** 2.3: helper variables: [const reglerleistung], [const sollTempAbwesend]
    and [let sollTempAnwesend] after the night-mode assignment. *)
Definition learnedFactor (states : States) : Q :=
  Js.orElse (reglerleistung states) 1.0.

Definition baseAbwesend (states : States) : Q :=
  Js.orElse (sollTempAbwesend states) 16.0.

Definition baseAnwesend (cfg : Config) (states : States) : Q :=
  if nachtschaltungNutzen cfg && Js.truthy (nachtschaltung states)
  then baseAbwesend states
  else Js.orElse (sollTempAnwesend states) 21.0.

(** [states.tuerSensor === 0] *)
Definition tuerIstGeschlossen (cfg : Config) (states : States) : bool :=
  tuerSensorNutzen cfg
  && match tuerSensor states with
     | Js.Num q => Qeq_bool q 0
     | _ => false
     end.

(** [state === true || state === 1] on some window contact. *)
Definition fensterIstOffen (states : States) : bool :=
  existsb (fun state =>
             match state with
             | Js.Bool true => true
             | Js.Num q => Qeq_bool q 1
             | _ => false
             end) (fensterKontakte states).

(** 3: the base temperature and the special-case flag. *)
Definition baseTemperature (cfg : Config) (states : States) : Q * bool :=
  if Js.truthy (heizPeriode states) then
    if fensterIstOffen states then (tempFensterOffen cfg, true)
    else if Js.truthy (anwesenheit states) then
      (if tuerSensorNutzen cfg && negb (tuerIstGeschlossen cfg states)
       then baseAbwesend states
       else baseAnwesend cfg states, false)
    else (baseAbwesend states, false)
  else (tempHeizperiodeAus cfg, true).

(** 4, first module: weather compensation based on outdoor temperature. *)
Definition weatherCompensation (cfg : Config) (states : States)
           (neueSollTemp : Q) : Q :=
  if aussenSensorOK states then
    if Js.ltb (Js.toNumber (aussenTempSensor states)) (aussenTempNeutral cfg)
    then
      let angepassterHeizkurvenfaktor :=
        heizkurvenfaktor cfg * learnedFactor states in
      neueSollTemp
      + (aussenTempNeutral cfg - Js.toNumber (aussenTempSensor states))
        * angepassterHeizkurvenfaktor
    else neueSollTemp
  else neueSollTemp.

(** The setpoint of [main] after the weather compensation module (the
    later modules add their own offsets to it). *)
Definition setpointAfterWeather (cfg : Config)
           (store : gmap string Js.value) : Q :=
  let states := collect cfg store in
  let '(neueSollTemp, istSonderfall) := baseTemperature cfg states in
  if negb istSonderfall
  then weatherCompensation cfg states neueSollTemp
  else neueSollTemp.

End Room.

(** ** The learning script: initialization *)

Module LearningInit.

(** [existsStateAsync(id)] *)
Definition existsState (store : gmap string Js.value) (id : string) : bool :=
  match store !! id with
  | Some _ => true
  | None => false
  end.

(** [createStateAsync(id, initial, common)] on an id that does not exist. *)
Definition createState (store : gmap string Js.value) (id : string)
           (initial : Js.value) : gmap string Js.value :=
  <[id := initial]> store.

(** [createStates] of the learning script; [autoCreateOutputStates] is the
    switch of its [CONFIG]. *)
Definition createStates (autoCreateOutputStates : bool)
           (cfg : Learning.Config) (store : gmap string Js.value)
  : gmap string Js.value :=
  if negb autoCreateOutputStates then store
  else
    let store1 :=
      if negb (existsState store (Learning.reglerleistungId cfg))
      then createState store (Learning.reglerleistungId cfg) (Js.Num 1.0)
      else store in
    if negb (existsState store1 (Learning.systemStabilitaetId cfg))
    then createState store1 (Learning.systemStabilitaetId cfg) (Js.Num 0.5)
    else store1.

End LearningInit.

(** ** The weather analysis script *)

Module Weather.

(** [Math.max], [Math.min] on numbers. *)
Definition max (a b : Q) : Q := if Js.ltb a b then b else a.
Definition min (a b : Q) : Q := if Js.ltb b a then b else a.

(** [CONFIG.weatherIds], in the order of its keys. *)
Record WeatherIds : Type := {
  idSolarradiation : string;
  idWindspeed : string;
  idTemp : string;
  idFeelslike : string;
  idHumidity : string;
  idDailyrain : string;
  idWinddir : string
}.

Definition weatherIds : WeatherIds := {|
  idSolarradiation := "0_userdata.0.Wetter.solarradiation";
  idWindspeed := "0_userdata.0.Wetter.windspeed";
  idTemp := "0_userdata.0.Wetter.temp";
  idFeelslike := "0_userdata.0.Wetter.feelslike";
  idHumidity := "0_userdata.0.Wetter.humidity";
  idDailyrain := "0_userdata.0.Wetter.dailyrain";
  idWinddir := "0_userdata.0.Wetter.winddir"
|}.

(** [Object.values(CONFIG.weatherIds)] *)
Definition values (ids : WeatherIds) : list string :=
  [idSolarradiation ids; idWindspeed ids; idTemp ids; idFeelslike ids;
   idHumidity ids; idDailyrain ids; idWinddir ids].

(** The object built by [getCurrentData]. *)
Record Data : Type := {
  solarradiation : Js.value;
  windspeed : Js.value;
  temp : Js.value;
  feelslike : Js.value;
  humidity : Js.value;
  dailyrain : Js.value;
  winddir : Js.value
}.

(** [state ? state.val : null] for every key of [CONFIG.weatherIds]. *)
Definition getCurrentData (ids : WeatherIds)
           (store : gmap string Js.value) : Data := {|
  solarradiation := Room.fetch store (idSolarradiation ids);
  windspeed := Room.fetch store (idWindspeed ids);
  temp := Room.fetch store (idTemp ids);
  feelslike := Room.fetch store (idFeelslike ids);
  humidity := Room.fetch store (idHumidity ids);
  dailyrain := Room.fetch store (idDailyrain ids);
  winddir := Room.fetch store (idWinddir ids)
|}.

(** [v !== null] *)
Definition notNull (v : Js.value) : bool :=
  match v with
  | Js.Null => false
  | _ => true
  end.

(** *** Layer 1 *)

Record Layer1 : Type := {
  aktuellerZustand : string;
  heizunterstuetzungSolar : Q;
  waermeverlustWind : Q
}.

Definition analyseCurrentData (data : Data) : Layer1 :=
  let condition :=
    if notNull (solarradiation data) && notNull (windspeed data)
       && notNull (dailyrain data)
    then
      String.append
        (if Js.ltb 400 (Js.toNumber (solarradiation data)) then "Sunny"
         else if Js.ltb 0.1 (Js.toNumber (dailyrain data)) then "Rainy"
              else "Cloudy")
        (if Js.ltb 25 (Js.toNumber (windspeed data)) then " & windy"
         else if Js.ltb (Js.toNumber (windspeed data)) 5 then " & calm"
              else " & moderate wind")
    else "Undetermined"%string in
  let heizunterstuetzungSolar :=
    min 1 (max 0 (Js.orElse (solarradiation data) 0 / 800)) in
  let waermeverlustWind := 1 + Js.orElse (windspeed data) 0 / 35 in
  {| aktuellerZustand := condition;
     heizunterstuetzungSolar := Js.toFixed 3 heizunterstuetzungSolar;
     waermeverlustWind := Js.toFixed 3 waermeverlustWind |}.

(** *** Histories *)

(** [sum + item.val]: a [null] value counts as 0. *)
Definition itemVal (item : Learning.Item) : Q :=
  match Learning.val item with
  | Some q => q
  | None => 0
  end.

(** [arr.reduce((sum, item) => sum + item.val, 0)] *)
Definition sumVals (arr : list Learning.Item) : Q :=
  fold_left (fun sum item => sum + itemVal item) arr 0.

(** [history[id] || []] *)
Definition series (history : gmap string (list Learning.Item)) (id : string)
  : list Learning.Item :=
  match history !! id with
  | Some arr => arr
  | None => []
  end.

(** The body of the loop of [getHistoryData] for one id: the reply of the
    adapter without its [null] samples, or the empty array when the reply
    has no result or the query throws. *)
Definition historyOf (reply : Learning.Reply) : list Learning.Item :=
  match reply with
  | Learning.Rejected => []
  | Learning.Answer _ (Some result) =>
      List.filter (fun item =>
                     match Learning.val item with
                     | Some _ => true
                     | None => false
                     end) result
  | Learning.Answer _ None => []
  end.

(** [getHistoryData(idList, hours)]; [adapter id hours] is what the
    [getHistory] query for [id] over the last [hours] hours gives. *)
Definition getHistoryData (adapter : string -> nat -> Learning.Reply)
           (idList : list string) (hours : nat)
  : gmap string (list Learning.Item) :=
  fold_left (fun history id => <[id := historyOf (adapter id hours)]> history)
            idList ∅.

(** *** Layer 2 *)

Definition analyse48hData (ids : WeatherIds)
           (history : gmap string (list Learning.Item)) : string :=
  let tempHistory := series history (idTemp ids) in
  let solarHistory := series history (idSolarradiation ids) in
  let trendText := ""%string in
  let trendText :=
    if (24 <? length tempHistory)%nat then
      let avgFirst24h := sumVals (firstn 24 tempHistory) / 24 in
      let avgLast24h := sumVals (Js.sliceLast 24 tempHistory) / 24 in
      let diff := avgLast24h - avgFirst24h in
      if Js.ltb 1 diff then String.append trendText "Warming"
      else if Js.ltb diff (-1) then String.append trendText "Cooling"
           else String.append trendText "Stable"
    else trendText in
  let trendText :=
    if (24 <? length solarHistory)%nat then
      let avgSolarLast24h := sumVals (Js.sliceLast 24 solarHistory) / 24 in
      if Js.ltb 200 avgSolarLast24h
      then String.append trendText ", sunny periods"
      else if Js.ltb avgSolarLast24h 50
           then String.append trendText ", heavily clouded"
           else trendText
    else trendText in
  match trendText with
  | EmptyString => "No data"%string
  | _ => trendText
  end.

(** *** Layer 3 *)

(** Under the guard [length > 100] both divisors are at least 50. *)
Definition analyse168hData (ids : WeatherIds)
           (history : gmap string (list Learning.Item)) : string :=
  let tempHistory := series history (idTemp ids) in
  if (100 <? length tempHistory)%nat then
    let halfIndex := (length tempHistory / 2)%nat in
    let avgFirstHalf :=
      sumVals (firstn halfIndex tempHistory)
      / inject_Z (Z.of_nat halfIndex) in
    let avgSecondHalf :=
      sumVals (skipn halfIndex tempHistory)
      / inject_Z (Z.of_nat (length tempHistory - halfIndex)) in
    let diff := avgSecondHalf - avgFirstHalf in
    if Js.ltb 1.5 diff then "Significant warming trend"%string
    else if Js.ltb diff (-1.5) then "Significant cooling trend"%string
         else "Stable weather conditions"%string
  else "No data"%string.

(** *** [runAnalysis] *)

(** A value written to an output datapoint. *)
Inductive Output : Type :=
| Text (s : string)
| Number (q : Q).

(** [CONFIG.outputIds], keys and ids in the order of the object. *)
Definition outputIds : list (string * string) :=
  [("aktuellerZustand", "0_userdata.0.Heizung.Analyse.Wetter_AktuellerZustand");
   ("heizunterstuetzungSolar",
    "0_userdata.0.Heizung.Analyse.Wetter_Heizunterstuetzung_Solar");
   ("waermeverlustWind",
    "0_userdata.0.Heizung.Analyse.Wetter_Waermeverlust_Wind");
   ("prognoseTrendKurz",
    "0_userdata.0.Heizung.Analyse.Wetter_Prognose_Trend_Kurz");
   ("prognoseTrendLang",
    "0_userdata.0.Heizung.Analyse.Wetter_Prognose_Trend_Lang")]%string.

(** [s.toLowerCase()] on the ASCII letters. *)
Definition lowerChar (c : Ascii.ascii) : Ascii.ascii :=
  let n := Ascii.nat_of_ascii c in
  if (65 <=? n)%nat && (n <=? 90)%nat then Ascii.ascii_of_nat (n + 32) else c.

Fixpoint toLowerCase (s : string) : string :=
  match s with
  | EmptyString => EmptyString
  | String c rest => String (lowerChar c) (toLowerCase rest)
  end.

(** [s.includes(sub)] *)
Fixpoint includes (s sub : string) : bool :=
  String.prefix sub s
  || match s with
     | EmptyString => false
     | String _ rest => includes rest sub
     end.

(** [Object.keys(CONFIG.outputIds).find(k =>
       k.toLowerCase().includes(key.toLowerCase()))], with its id. *)
Definition findOutput (outputs : list (string * string)) (key : string)
  : option (string * string) :=
  List.find (fun kv => includes (toLowerCase (fst kv)) (toLowerCase key))
            outputs.

(** The loop over [finalResults]: one write per key that finds an output. *)
Fixpoint writeResults (outputs : list (string * string))
         (finalResults : list (string * Output)) : list (string * Output) :=
  match finalResults with
  | [] => []
  | (key, v) :: rest =>
      match findOutput outputs key with
      | Some (_, id) => (id, v) :: writeResults outputs rest
      | None => writeResults outputs rest
      end
  end.

(** [runAnalysis]: the writes [setStateAsync(id, value, true)] it performs,
    in order. *)
Definition runAnalysis (ids : WeatherIds) (outputs : list (string * string))
           (store : gmap string Js.value)
           (adapter : string -> nat -> Learning.Reply)
  : list (string * Output) :=
  let currentData := getCurrentData ids store in
  let historyIds := values ids in
  let history48h := getHistoryData adapter historyIds 48 in
  let history168h := getHistoryData adapter historyIds 168 in
  let resultLayer1 := analyseCurrentData currentData in
  let resultLayer2 := analyse48hData ids history48h in
  let resultLayer3 := analyse168hData ids history168h in
  let finalResults :=
    [("aktuellerZustand", Text (aktuellerZustand resultLayer1));
     ("heizunterstuetzungSolar", Number (heizunterstuetzungSolar resultLayer1));
     ("waermeverlustWind", Number (waermeverlustWind resultLayer1));
     ("prognoseTrendKurz", Text resultLayer2);
     ("prognoseTrendLang", Text resultLayer3)]%string in
  writeResults outputs finalResults.

End Weather.

(** ** The room script: modules, limits and thermostats *)

Module RoomMain.

(** The fields of [CONFIG] read after the weather compensation; [room] holds
    the ones read before. *)
Record Config : Type := {
  room : Room.Config;
  hysterese : Q;
  temperaturOffset : Q;
  minSollTemp : Q;
  maxSollTemp : Q;
  luftfeuchteOptimal : Q;
  feuchteKorrekturfaktor : Q;
  schimmelSchutzAktiv : bool;
  sicherheitsabstandTaupunkt : Q;
  offsetSchimmelSchutz : Q;
  behaglichkeitAktiv : bool;
  maxTempDifferenzWand : Q;
  offsetBehaglichkeit : Q;
  heizlastAktiv : bool;
  heizlastKorrekturfaktor : Q;
  thermostate : list string;
  idFeuchteSensor : string;
  idWandSensorOberflaeche : string;
  idWandSensorKern : string
}.

Definition CONFIG : Config := {|
  room := Room.CONFIG;
  hysterese := 0.5;
  temperaturOffset := 0.0;
  minSollTemp := 16.0;
  maxSollTemp := 24.0;
  luftfeuchteOptimal := 50.0;
  feuchteKorrekturfaktor := 0.02;
  schimmelSchutzAktiv := true;
  sicherheitsabstandTaupunkt := 2.5;
  offsetSchimmelSchutz := 0.5;
  behaglichkeitAktiv := true;
  maxTempDifferenzWand := 3.0;
  offsetBehaglichkeit := 0.5;
  heizlastAktiv := true;
  heizlastKorrekturfaktor := 0.1;
  thermostate := ["hm-rpc.2.00000000000000.1.SET_POINT_TEMPERATURE"];
  idFeuchteSensor := "hm-rpc.2.00000000000000.1.HUMIDITY";
  idWandSensorOberflaeche := "hm-rpc.0.00000000000000.1.ACTUAL_TEMPERATURE";
  idWandSensorKern := "hm-rpc.0.00000000000000.2.ACTUAL_TEMPERATURE_STATUS"
|}.

(** The sensor values of [states] read by the later modules. *)
Record Sensors : Type := {
  feuchteSensor : Js.value;
  wandSensorOberflaeche : Js.value;
  wandSensorKern : Js.value
}.

Definition collectSensors (cfg : Config) (store : gmap string Js.value)
  : Sensors := {|
  feuchteSensor := Room.fetch store (idFeuchteSensor cfg);
  wandSensorOberflaeche := Room.fetch store (idWandSensorOberflaeche cfg);
  wandSensorKern := Room.fetch store (idWandSensorKern cfg)
|}.

(** [v !== null] *)
Definition notNull (v : Js.value) : bool :=
  match v with
  | Js.Null => false
  | _ => true
  end.

(** 2.2: plausibility of the humidity sensor. *)
Definition feuchteSensorOK (sensors : Sensors) : bool :=
  notNull (feuchteSensor sensors)
  && Js.leb 0.0 (Js.toNumber (feuchteSensor sensors))
  && Js.leb (Js.toNumber (feuchteSensor sensors)) 100.0.

Definition wandSensorOberflaecheOK (sensors : Sensors) : bool :=
  notNull (wandSensorOberflaeche sensors)
  && Js.ltb (Js.toNumber (wandSensorOberflaeche sensors)) 90.0.

Definition wandSensorKernOK (sensors : Sensors) : bool :=
  notNull (wandSensorKern sensors)
  && Js.ltb (Js.toNumber (wandSensorKern sensors)) 90.0.

(** [Math.round(x)]: the nearest integer, ties upwards. *)
Definition round (x : Q) : Z := Js.roundHalfUp x.

(** 5: the limits (outside special cases) and the rounding to steps of 0.5.
    The result is kept in lowest terms. *)
Definition finalize (cfg : Config) (istSonderfall : bool) (neueSollTemp : Q)
  : Q :=
  let limited :=
    if negb istSonderfall then
      let t := if Js.ltb (maxSollTemp cfg) neueSollTemp
               then maxSollTemp cfg else neueSollTemp in
      if Js.ltb t (minSollTemp cfg) then minSollTemp cfg else t
    else neueSollTemp in
  Qred (inject_Z (round (limited * 2)) / 2).

(** [s.replace(pattern, replacement)] for a string pattern: the first
    occurrence only. *)
Fixpoint dropChars (n : nat) (s : string) : string :=
  match n, s with
  | O, _ => s
  | S n', String _ rest => dropChars n' rest
  | S _, EmptyString => EmptyString
  end.

Fixpoint replaceFirst (pattern replacement s : string) : string :=
  if String.prefix pattern s
  then String.append replacement (dropChars (String.length pattern) s)
  else match s with
       | EmptyString => EmptyString
       | String c rest => String c (replaceFirst pattern replacement rest)
       end.

Definition controlModeId (thermostatId : string) : string :=
  replaceFirst "SET_POINT_TEMPERATURE" "CONTROL_MODE" thermostatId.

(** [Math.abs(neueSollTemp - aktuellEingestellteTemp) > CONFIG.hysterese],
    with [(await getStateAsync(thermostatId))?.val || 4.5] for the current
    setpoint. *)
Definition sollwertGeaendert (cfg : Config) (neueSollTemp : Q)
           (store : gmap string Js.value) (thermostatId : string) : bool :=
  let aktuellEingestellteTemp :=
    Js.orElse (Room.fetch store thermostatId) 4.5 in
  Js.ltb (hysterese cfg) (Qabs (neueSollTemp - aktuellEingestellteTemp)).

(** One round of the loop over the thermostats: the setpoint, then the
    control mode 1 (automatic). *)
Definition sendSetpoint (cfg : Config) (neueSollTemp : Q)
           (store : gmap string Js.value) (thermostatId : string)
  : gmap string Js.value :=
  if sollwertGeaendert cfg neueSollTemp store thermostatId then
    let store1 := <[thermostatId := Js.Num neueSollTemp]> store in
    <[controlModeId thermostatId := Js.Num 1]> store1
  else store.

Section Main.

(** The mold protection compares the wall surface with a dew point computed
    with [Math.log], which has no rational value.  [zuNahAmTaupunkt
    neueSollTemp feuchte wand abstand] stands for the outcome of
    [wand < taupunkt + abstand]; nothing is assumed about it. *)
Variable zuNahAmTaupunkt : Q -> Q -> Q -> Q -> bool.

(** 4: the dynamic adjustments, in the order of the script. *)
Definition dynamicAdjustments (cfg : Config) (states : Room.States)
           (sensors : Sensors) (neueSollTemp : Q) : Q :=
  let feuchte := Js.toNumber (feuchteSensor sensors) in
  let wand := Js.toNumber (wandSensorOberflaeche sensors) in
  let kern := Js.toNumber (wandSensorKern sensors) in
  let t := Room.weatherCompensation (room cfg) states neueSollTemp in
  let t :=
    if feuchteSensorOK sensors
    then t + (luftfeuchteOptimal cfg - feuchte) * feuchteKorrekturfaktor cfg
    else t in
  let t :=
    if schimmelSchutzAktiv cfg && feuchteSensorOK sensors
       && wandSensorOberflaecheOK sensors
    then if zuNahAmTaupunkt t feuchte wand (sicherheitsabstandTaupunkt cfg)
         then t + offsetSchimmelSchutz cfg else t
    else t in
  let t :=
    if behaglichkeitAktiv cfg && wandSensorOberflaecheOK sensors
    then if Js.ltb (maxTempDifferenzWand cfg) (t - wand)
         then t + offsetBehaglichkeit cfg else t
    else t in
  let t :=
    if heizlastAktiv cfg && wandSensorOberflaecheOK sensors
       && wandSensorKernOK sensors
    then let tempDifferenz := kern - wand in
         if Js.ltb 0 tempDifferenz
         then t + tempDifferenz * heizlastKorrekturfaktor cfg else t
    else t in
  t + temperaturOffset cfg.

(** The setpoint [main] sends. *)
Definition neueSollTemp (cfg : Config) (store : gmap string Js.value) : Q :=
  let states := Room.collect (room cfg) store in
  let sensors := collectSensors cfg store in
  let '(base, istSonderfall) := Room.baseTemperature (room cfg) states in
  let t :=
    if negb istSonderfall
    then dynamicAdjustments cfg states sensors base
    else base in
  finalize cfg istSonderfall t.

(** [main]: the store after the loop over the thermostats. *)
Definition main (cfg : Config) (store : gmap string Js.value)
  : gmap string Js.value :=
  fold_left (sendSetpoint cfg (neueSollTemp cfg store)) (thermostate cfg) store.

End Main.

(** *** The rate limiter *)

Definition COOLDOWN_MS : Z := 2000.

(** [rateLimitedMain] at time [now]: the new [lastRunTimestamp] and whether
    [main] is run. *)
Definition rateLimitedMain (lastRunTimestamp now : Z) : Z * bool :=
  if (now - lastRunTimestamp <? COOLDOWN_MS)%Z
  then (lastRunTimestamp, false)
  else (now, true).

(** The times at which [main] runs, for triggers arriving at the given
    times. *)
Fixpoint executed (lastRunTimestamp : Z) (triggers : list Z) : list Z :=
  match triggers with
  | [] => []
  | now :: rest =>
      let '(last, ran) := rateLimitedMain lastRunTimestamp now in
      if ran then now :: executed last rest else executed last rest
  end.

End RoomMain.

(** ** The heating-period script *)

Module HeatingPeriod.

Definition HEATING_LIMIT_TEMP : Q := 18.0.

(** The five datapoints of the script, each absent ([None]) or present.  The
    numeric and boolean ones hold a number, a boolean or [null]; the reset
    date is a text. *)
Record State : Type := {
  avgTemp : option Js.value;        (* AVG_TEMP_DP *)
  sumCache : option Js.value;       (* SUM_CACHE_DP *)
  counter : option Js.value;        (* COUNTER_DP *)
  heatingPeriod : option Js.value;  (* HEATING_PERIOD_DP *)
  lastReset : option string         (* LAST_RESET_DP *)
}.

Definition orCreate {A : Type} (current : option A) (def : A) : option A :=
  match current with
  | Some v => Some v
  | None => Some def
  end.

(** [createDataPoints]: every missing datapoint is created with its
    default. *)
Definition createDataPoints (st : State) : State := {|
  avgTemp := orCreate (avgTemp st) (Js.Num 0);
  sumCache := orCreate (sumCache st) (Js.Num 0);
  counter := orCreate (counter st) (Js.Num 0);
  heatingPeriod := orCreate (heatingPeriod st) (Js.Bool false);
  lastReset := orCreate (lastReset st) "never"%string
|}.

(** How a handler ends: it completes, it returns early, or an exception
    leaves it ([.val] of a missing state, [.toFixed] of a value that is no
    number). *)
Inductive Outcome : Type :=
| Done
| Skipped
| Threw.

(** Trigger 1: an update of the temperature sensor with value
    [currentTemp]. *)
Definition onSensorUpdate (currentTemp : Js.value) (st : State)
  : State * Outcome :=
  if negb (Js.isNumber currentTemp) then (st, Skipped)
  else
    match sumCache st with
    | None => (st, Threw)
    | Some sumVal =>
        let oldSum := Js.orElse sumVal 0 in
        match counter st with
        | None => (st, Threw)
        | Some counterVal =>
            let oldCounter := Js.orElse counterVal 0 in
            let newSum := oldSum + Js.toNumber currentTemp in
            let newCounter := oldCounter + 1 in
            ({| avgTemp := avgTemp st;
                sumCache := Some (Js.Num newSum);
                counter := Some (Js.Num newCounter);
                heatingPeriod := heatingPeriod st;
                lastReset := lastReset st |}, Done)
        end
    end.


(** The sensor updates of a day, one after the other. *)
Definition onSensorUpdates (readings : list Js.value) (st : State) : State :=
  fold_left (fun st currentTemp => fst (onSensorUpdate currentTemp st))
            readings st.

(** [new Date()], the fields the script reads. *)
Record Date : Type := {
  getDate : nat;
  getMonth : nat;      (* 0 = January *)
  getFullYear : nat
}.

(** [String(n)] for a natural number. *)
Definition stringOfNat (n : nat) : string :=
  NilEmpty.string_of_uint (Nat.to_uint n).

(** [s.padStart(2, '0')] *)
Definition padStart2 (s : string) : string :=
  match String.length s with
  | O => "00"%string
  | S O => String.append "0" s
  | _ => s
  end.

Definition dateString (now : Date) : string :=
  String.append (padStart2 (stringOfNat (getDate now)))
    (String.append "."
       (String.append (padStart2 (stringOfNat (getMonth now + 1)))
          (String.append "." (stringOfNat (getFullYear now))))).

(** October to May. *)
Definition isHeatingTimeframe (now : Date) : bool :=
  let month := (getMonth now + 1)%nat in
  (10 <=? month)%nat || (month <=? 5)%nat.

(** Trigger 2: the end-of-day run at time [now]. *)
Definition endOfDay (now : Date) (st : State) : State * Outcome :=
  match sumCache st with
  | None => (st, Threw)
  | Some sum =>
      match counter st with
      | None => (st, Threw)
      | Some count =>
          let dailyAverage :=
            if Js.ltb 0 (Js.toNumber count)
            then Js.toNumber sum / Js.toNumber count
            else 0 in
          let st1 :=
            {| avgTemp := Some (Js.Num (Js.toFixed 2 dailyAverage));
               sumCache := sumCache st;
               counter := counter st;
               heatingPeriod := heatingPeriod st;
               lastReset := lastReset st |} in
          (* the log line formats [sum.toFixed(2)] *)
          if negb (Js.isNumber sum) then (st1, Threw)
          else
            let isBelowHeatingLimit :=
              Js.leb dailyAverage HEATING_LIMIT_TEMP in
            let heatingPeriodActive :=
              isBelowHeatingLimit && isHeatingTimeframe now in
            ({| avgTemp := avgTemp st1;
                sumCache := Some (Js.Num 0);
                counter := Some (Js.Num 0);
                heatingPeriod := Some (Js.Bool heatingPeriodActive);
                lastReset := Some (dateString now) |}, Done)
      end
  end.

End HeatingPeriod.

(** ** The heating-curve analysis script *)

Module HeatingCurve.

Record Config : Type := {
  analyseHours : nat;
  tempGrenzeSteilheit : Q;
  tempGrenzeNiveau : Q;
  svHeizperiodeId : string;
  aussenTempId : string;
  aktuelleHeizkurveId : string;
  adaptiveHeizkurveId : string;
  empfohleneSteilheitId : string;
  empfohlenesNiveauId : string;
  letzteAnalyseSteilheit : string;
  letzteAnalyseNiveau : string
}.

Definition CONFIG : Config := {|
  analyseHours := 6;
  tempGrenzeSteilheit := 0.0;
  tempGrenzeNiveau := 5.0;
  svHeizperiodeId := "hm-rega.0.Heizung.Heizperiode";
  aussenTempId := "ebus.0.700.messages.OutsideTempAvg.fields.tempv.value";
  aktuelleHeizkurveId := "ebus.0.700.messages.Hc1HeatCurve.fields.0.value";
  adaptiveHeizkurveId :=
    "ebus.0.700.messages.Hc1HeatCurveAdaption.fields.value.value";
  empfohleneSteilheitId := "0_userdata.0.Heizung.Analyse.EmpfohleneSteilheit";
  empfohlenesNiveauId := "0_userdata.0.Heizung.Analyse.EmpfohlenesNiveau";
  letzteAnalyseSteilheit :=
    "0_userdata.0.Heizung.Analyse.LetzteAnalyseSteilheit";
  letzteAnalyseNiveau := "0_userdata.0.Heizung.Analyse.LetzteAnalyseNiveau"
|}.

(** The texts the script writes, without their rendering: each starts with
    the time stamp [jetzt]; two of them name the new recommendation. *)
Inductive Note : Type :=
| RecommendationIncreasedTo (neueEmpfehlung : Q)
| BoilerIsAdapting
| RecommendationDecreasedTo (neueEmpfehlung : Q)
| NoChangeRecommended
| NotYetImplemented.

(** A value passed to [setStateAsync]. *)
Inductive Written : Type :=
| Value (q : Q)
| Message (jetzt : string) (note : Note).

(** [v !== null && v > 1.0] *)
Definition active (v : option Q) : bool :=
  match v with
  | None => false
  | Some q => Js.ltb 1.0 q
  end.

Fixpoint activeValues (vals : list (option Q)) : list Q :=
  match vals with
  | [] => []
  | Some q :: rest =>
      if Js.ltb 1.0 q then q :: activeValues rest else activeValues rest
  | None :: rest => activeValues rest
  end.

(** The [try] block: [None] when it throws. *)
Definition queryHistory (r : Learning.Reply) : option (list Q) :=
  match r with
  | Learning.Rejected => None
  | Learning.Answer error result =>
      match error with
      | Some (String _ _) => None
      | _ =>
          match result with
          | None => None
          | Some [] => None
          | Some items => Some (activeValues (map Learning.val items))
          end
      end
  end.

(** [analyseSystem] at time stamp [jetzt]: the writes
    [setStateAsync(id, value, true)] it performs, in order.  Under the guard
    [analyseWindow.length >= 5] the divisor of the mean is not zero. *)
Definition analyseSystem (cfg : Config) (store : gmap string Js.value)
           (reply : Learning.Reply) (jetzt : string)
  : list (string * Written) :=
  match store !! svHeizperiodeId cfg with
  | None => []
  | Some heizperiode =>
      if negb (Js.truthy heizperiode) then []
      else
        match store !! aussenTempId cfg,
              store !! aktuelleHeizkurveId cfg,
              store !! adaptiveHeizkurveId cfg with
        | Some aussenTemp, Some aktuelleBasisKurve, Some aktuelleAdaption =>
            match queryHistory reply with
            | None => []
            | Some historyData =>
                let analyseWindow :=
                  Js.sliceLast (analyseHours cfg * 2) historyData in
                if (length analyseWindow <? 5)%nat then []
                else
                  let avgSpreizung :=
                    Js.sum analyseWindow / Js.len analyseWindow in
                  if Js.leb (Js.toNumber aussenTemp) (tempGrenzeSteilheit cfg)
                  then
                    if Js.ltb 15.0 avgSpreizung then
                      if Js.ltb (Js.toNumber aktuelleAdaption) 0.1 then
                        let neueEmpfehlung :=
                          Js.toFixed 1 (Js.toNumber aktuelleBasisKurve + 0.1) in
                        [(empfohleneSteilheitId cfg, Value neueEmpfehlung);
                         (letzteAnalyseSteilheit cfg,
                          Message jetzt
                                  (RecommendationIncreasedTo neueEmpfehlung))]
                      else
                        [(letzteAnalyseSteilheit cfg,
                          Message jetzt BoilerIsAdapting)]
                    else if Js.ltb avgSpreizung 5.0 then
                      let neueEmpfehlung :=
                        Js.toFixed 1 (Js.toNumber aktuelleBasisKurve - 0.1) in
                      [(empfohleneSteilheitId cfg, Value neueEmpfehlung);
                       (letzteAnalyseSteilheit cfg,
                        Message jetzt
                                (RecommendationDecreasedTo neueEmpfehlung))]
                    else
                      [(letzteAnalyseSteilheit cfg,
                        Message jetzt NoChangeRecommended)]
                  else if Js.leb (tempGrenzeNiveau cfg)
                                 (Js.toNumber aussenTemp)
                  then [(letzteAnalyseNiveau cfg,
                         Message jetzt NotYetImplemented)]
                  else []
            end
        | _, _, _ => []
        end
  end.

End HeatingCurve.

(** ** Binary64 arithmetic

    The numbers of the scripts are IEEE 754 binary64 values.  [Binary64] is
    an executable model of them: a finite value is the rational it denotes,
    every operation is the exact operation followed by rounding to nearest
    (ties to even) onto the binary64 grid, with overflow to an infinity.
    The sign of zero is not kept; no computation modelled here divides by
    zero or looks at the sign of a zero.  [Primitive64] runs the same
    computation on Rocq's primitive binary64 floats, to compare. *)

Module Binary64.

Inductive double : Type :=
| Fin (q : Q)
| Inf (negative : bool)
| NaN.

Definition pow2 (e : Z) : Q := 2 ^ e.

Definition ilog2 (x : Q) : Z :=
  let e0 := (Z.log2 (Qnum x) - Z.log2 (Zpos (Qden x)))%Z in
  if Qle_bool (pow2 e0) x then e0 else (e0 - 1)%Z.

Definition roundHalfEven (s : Q) : Z :=
  let f := Qfloor s in
  match Qcompare (s - inject_Z f) (1 # 2) with
  | Lt => f
  | Gt => (f + 1)%Z
  | Eq => if Z.even f then f else (f + 1)%Z
  end.

Definition negative (x : Q) : bool := negb (Qle_bool 0 x).

Definition rnd (x : Q) : double :=
  if Qeq_bool x 0 then Fin 0
  else
    let a := Qabs x in
    let ulp := pow2 (Z.max (ilog2 a - 52) (-1074)) in
    let r := inject_Z (roundHalfEven (a / ulp)) * ulp in
    if Qle_bool (pow2 1024) r then Inf (negative x)
    else Fin (Qred (if negative x then - r else r)).

Definition add (a b : double) : double :=
  match a, b with
  | NaN, _ | _, NaN => NaN
  | Inf s, Inf s' => if Bool.eqb s s' then Inf s else NaN
  | Inf s, Fin _ | Fin _, Inf s => Inf s
  | Fin x, Fin y => rnd (x + y)
  end.

Definition opp (a : double) : double :=
  match a with
  | Fin x => Fin (- x)
  | Inf s => Inf (negb s)
  | NaN => NaN
  end.

Definition sub (a b : double) : double := add a (opp b).

Definition mul (a b : double) : double :=
  match a, b with
  | NaN, _ | _, NaN => NaN
  | Inf s, Inf s' => Inf (xorb s s')
  | Inf s, Fin y | Fin y, Inf s =>
      if Qeq_bool y 0 then NaN else Inf (xorb s (negative y))
  | Fin x, Fin y => rnd (x * y)
  end.

Definition div (a b : double) : double :=
  match a, b with
  | NaN, _ | _, NaN => NaN
  | Inf _, Inf _ => NaN
  | Inf s, Fin y => Inf (xorb s (negative y))
  | Fin _, Inf _ => Fin 0
  | Fin x, Fin y =>
      if Qeq_bool y 0
      then if Qeq_bool x 0 then NaN else Inf (negative x)
      else rnd (x / y)
  end.

(** [a < b] and [a <= b]: false as soon as NaN takes part. *)
Definition ltb (a b : double) : bool :=
  match a, b with
  | NaN, _ | _, NaN => false
  | Fin x, Fin y => Js.ltb x y
  | Inf s, Inf s' => s && negb s'
  | Inf s, Fin _ => s
  | Fin _, Inf s => negb s
  end.

Definition leb (a b : double) : bool :=
  match a, b with
  | NaN, _ | _, NaN => false
  | Fin x, Fin y => Js.leb x y
  | Inf s, Inf s' => s || negb s'
  | Inf s, Fin _ => s
  | Fin _, Inf s => negb s
  end.


End Binary64.

(** ** The estimator in binary64 *)

Module Learning64.
Import Binary64.

(** A decimal literal of the script: the nearest double. *)
Definition lit (q : Q) : double := rnd q.

(** [arr.reduce((a, b) => a + b, 0)] *)
Definition sum (arr : list double) : double := fold_left add arr (Fin 0).

(** [arr.length]; array lengths are exact doubles. *)
Definition len {A : Type} (arr : list A) : double :=
  Fin (inject_Z (Z.of_nat (length arr))).

(** [Math.pow(x, 2)], computed as [x * x]. *)
Definition pow_2 (x : double) : double := mul x x.

Record Stats : Type := {
  mean : double;
  variance : double;
  stability : double
}.

(** Step 3 of [main], lines 455 to 460. *)
Definition windowStats (stabilityWindow : list double) : Stats :=
  let sum_ := sum stabilityWindow in
  let mean := div sum_ (len stabilityWindow) in
  let variance :=
    div (sum (map (fun x => pow_2 (sub x mean)) stabilityWindow))
        (len stabilityWindow) in
  let stability := div (lit 1.0) (add (lit 1.0) variance) in
  {| mean := mean; variance := variance; stability := stability |}.

(** Step 4 of [main]: the chain and the hard limits. *)
Definition adjust (cfg : Learning.Config)
           (avg3h stability newReglerleistung : double)
  : Learning.AdjustmentCase * double :=
  let basisLernrate := lit (Learning.basisLernrate cfg) in
  if ltb avg3h (lit 7.0) && ltb stability (lit 0.4) then
    (Learning.Case1_SystemSluggishUnstable,
     add newReglerleistung
         (mul (div (sub (lit 7.0) avg3h) (lit 7.0))
              (mul basisLernrate (lit 2.0))))
  else if ltb (lit 16.0) avg3h && ltb (lit 0.6) stability then
    (Learning.Case2_SystemOverreacting, mul newReglerleistung (lit 0.95))
  else if leb (lit 8.0) avg3h && leb avg3h (lit 12.0)
          && ltb (lit 0.7) stability then
    (Learning.Case3_SystemInOptimalRange,
     add (mul newReglerleistung (lit 0.99)) (lit 0.01))
  else
    (Learning.DefaultConvergence,
     add newReglerleistung
         (mul (sub (lit 1.0) newReglerleistung)
              (mul basisLernrate stability))).

Definition hardLimits (newReglerleistung : double) : double :=
  let r := if ltb newReglerleistung (lit 0.3) then lit 0.3
           else newReglerleistung in
  if ltb (lit 1.7) r then lit 1.7 else r.

Record Estimate : Type := {
  estStability : double;
  estReglerleistung : double;
  estCase : Learning.AdjustmentCase
}.

Definition estimate (cfg : Learning.Config) (stabilityWindow : list double)
           (previous : double) : Estimate :=
  let st := windowStats stabilityWindow in
  let '(c, r) := adjust cfg (mean st) (stability st) previous in
  {| estStability := stability st;
     estReglerleistung := hardLimits r;
     estCase := c |}.

End Learning64.

(** Step 3 on Rocq's primitive binary64 floats. *)

Module Primitive64.

Definition windowStats (stabilityWindow : list float)
  : float * float * float :=
  let n :=
    PrimFloat.of_uint63 (Uint63.of_Z (Z.of_nat (length stabilityWindow))) in
  let sum := fold_left PrimFloat.add stabilityWindow 0%float in
  let mean := PrimFloat.div sum n in
  let variance :=
    PrimFloat.div
      (fold_left PrimFloat.add
                 (map (fun x => PrimFloat.mul (PrimFloat.sub x mean)
                                              (PrimFloat.sub x mean))
                      stabilityWindow) 0%float) n in
  (mean, variance,
   PrimFloat.div 1%float (PrimFloat.add 1%float variance)).


End Primitive64.

(** ** The estimator in the words of the spec

    A second definition, following the spec's words: the arithmetic mean of
    the window and the mean of the squared deviations from it, in exact
    arithmetic. *)

Module EstimatorSpec.

Fixpoint total (window : list Q) : Q :=
  match window with
  | [] => 0
  | x :: rest => x + total rest
  end.

Definition count {A : Type} (window : list A) : Q :=
  inject_Z (Z.of_nat (length window)).

Definition meanOf (window : list Q) : Q := total window / count window.

Definition varianceOf (window : list Q) : Q :=
  total (map (fun x => (x - meanOf window) * (x - meanOf window)) window)
  / count window.

Definition stabilityOf (window : list Q) : Q := 1 / (1 + varianceOf window).

(** The same in binary64: the values are added one after the other, from
    the first on, every operation rounding. *)






End EstimatorSpec.

(** * Properties *)

(** ** Comparisons, division and sums *)

(** Closed comparisons of rationals, by evaluation. *)
Ltac qdecide :=
  unfold Qeq, Qle, Qlt; vm_compute;
  first [reflexivity | discriminate | (intros ?; discriminate)].

Section JsFacts.

Lemma ltb_lt (x y : Q) : Js.ltb x y = true <-> x < y.
Proof.
  unfold Js.ltb. rewrite negb_true_iff.
  destruct (Qle_bool y x) eqn:E.
  - apply Qle_bool_iff in E. split; [discriminate | intros H; lra].
  - split; [intros _ | reflexivity].
    apply Qnot_le_lt. intros H. apply Qle_bool_iff in H. congruence.
Qed.

Lemma ltb_ge (x y : Q) : Js.ltb x y = false <-> y <= x.
Proof.
  unfold Js.ltb. rewrite negb_false_iff. apply Qle_bool_iff.
Qed.

Lemma leb_le (x y : Q) : Js.leb x y = true <-> x <= y.
Proof. apply Qle_bool_iff. Qed.

Lemma leb_gt (x y : Q) : Js.leb x y = false <-> y < x.
Proof.
  unfold Js.leb. destruct (Qle_bool x y) eqn:E.
  - apply Qle_bool_iff in E. split; [discriminate | intros H; lra].
  - split; [intros _ | reflexivity].
    apply Qnot_le_lt. intros H. apply Qle_bool_iff in H. congruence.
Qed.

Lemma div_defined (a b : Q) : ~ b == 0 -> Js.div a b = Some (a / b).
Proof.
  intros Hb. unfold Js.div. destruct (Qeq_bool b 0) eqn:E; [| reflexivity].
  apply Qeq_bool_iff in E. contradiction.
Qed.

Lemma div_undefined (a b : Q) : b == 0 -> Js.div a b = None.
Proof.
  intros Hb. unfold Js.div. apply Qeq_bool_iff in Hb. now rewrite Hb.
Qed.

Lemma len_nonempty {A : Type} (arr : list A) : arr <> [] -> 0 < Js.len arr.
Proof.
  intros Hne. destruct arr as [| a arr]; [congruence |].
  unfold Js.len. change 0 with (inject_Z 0). rewrite <- Zlt_Qlt.
  simpl length. lia.
Qed.

Lemma fold_plus_shift (arr : list Q) (a : Q) :
  fold_left Qplus arr a == a + fold_left Qplus arr 0.
Proof.
  revert a. induction arr as [| x arr IH]; intros a; simpl.
  - lra.
  - rewrite (IH (a + x)), (IH (0 + x)). lra.
Qed.

Lemma sum_cons (x : Q) (arr : list Q) : Js.sum (x :: arr) == x + Js.sum arr.
Proof.
  unfold Js.sum. simpl. rewrite fold_plus_shift. lra.
Qed.

Lemma sum_nonneg (arr : list Q) :
  Forall (fun x => 0 <= x) arr -> 0 <= Js.sum arr.
Proof.
  induction 1 as [| x arr Hx _ IH].
  - unfold Js.sum. simpl. lra.
  - rewrite sum_cons. lra.
Qed.

Lemma square_nonneg (x : Q) : 0 <= x ^ 2.
Proof. simpl. nra. Qed.

End JsFacts.

(** ** Step 3: mean, variance and stability *)

Section Stability.
Import Learning.

Lemma squaredDeviations_nonneg (m : Q) (w : list Q) :
  Forall (fun x => 0 <= x) (squaredDeviations m w).
Proof.
  unfold squaredDeviations. induction w as [| x w IH]; simpl.
  - constructor.
  - constructor; [apply square_nonneg | exact IH].
Qed.

Lemma inverse_in_unit_interval (v : Q) :
  0 <= v -> 0 < 1.0 / (1.0 + v) <= 1.
Proof.
  intros Hv. assert (0 < 1.0 + v) by lra. split.
  - apply Qlt_shift_div_l; lra.
  - apply Qle_shift_div_r; lra.
Qed.

(** On a non-empty window no division of step 3 has a zero divisor, and
    the three results are the ones the script computes. *)
Lemma windowStats_nonempty (w : list Q) :
  w <> [] ->
  exists st,
    windowStats w = Some st
    /\ mean st = Js.sum w / Js.len w
    /\ variance st = Js.sum (squaredDeviations (mean st) w) / Js.len w
    /\ stability st = 1.0 / (1.0 + variance st)
    /\ 0 <= variance st.
Proof.
  intros Hne. pose proof (len_nonempty w Hne) as Hlen.
  set (m := Js.sum w / Js.len w).
  set (v := Js.sum (squaredDeviations m w) / Js.len w).
  assert (Hv : 0 <= v).
  { unfold v. apply Qle_shift_div_l; [exact Hlen |].
    pose proof (sum_nonneg _ (squaredDeviations_nonneg m w)). lra. }
  exists {| mean := m; variance := v; stability := 1.0 / (1.0 + v) |}.
  simpl. repeat split; try assumption.
  unfold windowStats.
  rewrite (div_defined (Js.sum w) (Js.len w)) by lra. simpl.
  fold m.
  rewrite (div_defined (Js.sum (squaredDeviations m w)) (Js.len w)) by lra.
  simpl. fold v.
  rewrite (div_defined 1.0 (1.0 + v)) by lra. reflexivity.
Qed.

(** On the empty window the mean is 0/0. *)
Lemma windowStats_empty : windowStats [] = None.
Proof. reflexivity. Qed.

End Stability.

(** ** Step 4: the chain and the hard limits *)

Section Adjustment.
Import Learning.

(** The chain of [main] is [adjustWith] at the literals of the script. *)
Lemma adjust_sourceThresholds (cfg : Config) (avg3h stab r : Q) :
  adjust cfg avg3h stab r = adjustWith sourceThresholds cfg avg3h stab r.
Proof. reflexivity. Qed.

Lemma hardLimits_range (r : Q) : 0.3 <= hardLimits r <= 1.7.
Proof.
  unfold hardLimits.
  destruct (Js.ltb r 0.3) eqn:Hlow.
  - destruct (Js.ltb 1.7 0.3) eqn:Habs; [| lra].
    apply ltb_lt in Habs. lra.
  - apply ltb_ge in Hlow.
    destruct (Js.ltb 1.7 r) eqn:Hhigh; [lra |].
    apply ltb_ge in Hhigh. lra.
Qed.

(** Inside the limits nothing changes. *)
Lemma hardLimits_inside (r : Q) : 0.3 <= r <= 1.7 -> hardLimits r = r.
Proof.
  intros [Hl Hu]. unfold hardLimits.
  apply ltb_ge in Hl. rewrite Hl. apply ltb_ge in Hu. now rewrite Hu.
Qed.

(** [estimate] unfolded on a non-empty window. *)
Lemma estimate_nonempty (cfg : Config) (w : list Q) (previous : Q) :
  w <> [] ->
  exists st,
    windowStats w = Some st
    /\ estimate cfg w previous
       = Some {| estStability := stability st;
                 estReglerleistung :=
                   hardLimits (snd (adjust cfg (mean st) (stability st) previous));
                 estCase := fst (adjust cfg (mean st) (stability st) previous) |}.
Proof.
  intros Hne. destruct (windowStats_nonempty w Hne) as (st & Hst & _).
  exists st. split; [exact Hst |].
  unfold estimate. rewrite Hst. simpl.
  now destruct (adjust cfg (mean st) (stability st) previous).
Qed.

(** Rounding to four decimals keeps a factor inside the limits. *)
Lemma toFixed4_range (r : Q) :
  0.3 <= r <= 1.7 -> 0.3 <= Js.toFixed 4 r <= 1.7.
Proof.
  intros [Hl Hu]. unfold Js.toFixed.
  assert (Hneg : Js.ltb r 0 = false) by (apply ltb_ge; lra).
  rewrite Hneg, Qred_correct. unfold Js.roundHalfUp.
  change (inject_Z (10 ^ Z.of_nat 4)) with (inject_Z 10000).
  set (n := Qfloor (r * inject_Z 10000 + (1 # 2))).
  assert (Hn : (3000 <= n <= 17000)%Z).
  { split.
    - change 3000%Z with (Qfloor (inject_Z 3000)).
      apply Qfloor_resp_le. change (inject_Z 3000) with 3000.
      change (inject_Z 10000) with 10000. lra.
    - change 17000%Z with (Qfloor (17000 + (1 # 2))).
      apply Qfloor_resp_le. change (inject_Z 10000) with 10000. lra. }
  destruct Hn as [Hn1 Hn2].
  rewrite Zle_Qle in Hn1, Hn2.
  change (inject_Z 3000) with 3000 in Hn1.
  change (inject_Z 17000) with 17000 in Hn2.
  change (inject_Z 10000) with 10000.
  split.
  - apply Qle_shift_div_l; lra.
  - apply Qle_shift_div_r; lra.
Qed.

End Adjustment.

(** ** Binary64: rounding *)

Section Rounding.
Import Binary64.











End Rounding.

Section RoundingBounds.
Import Binary64.








End RoundingBounds.

(** ** Binary64: the operations on numbers that are not negative *)

Section Operations64.
Import Binary64.















End Operations64.

(** ** The two definitions of the sums agree *)

Section SpecWords.





End SpecWords.

(** ** The claims about the estimator *)

Section Estimator.
Import Learning.

(** C1.  For every window of length at least 1 and every previous factor,
    one estimator invocation returns a performance factor inside the closed
    interval [0.3, 1.7], whatever the magnitude of the window values or of
    the previous factor (the window values need not even be non-negative);
    the value written to the datapoint, rounded to four decimals, is inside
    the same interval. *)
Theorem factor_within_hard_limits (cfg : Config) (w : list Q) (previous : Q) :
  w <> [] ->
  exists e,
    estimate cfg w previous = Some e
    /\ 0.3 <= estReglerleistung e <= 1.7
    /\ 0.3 <= Js.toFixed 4 (estReglerleistung e) <= 1.7.
Proof.
  intros Hne.
  destruct (estimate_nonempty cfg w previous Hne) as (st & _ & He).
  eexists. split; [exact He |]. simpl.
  split; [apply hardLimits_range | apply toFixed4_range, hardLimits_range].
Qed.

Lemma factor_within_hard_limits_witness :
  [0; 0; 0] <> []
  /\ exists e,
       estimate CONFIG [0; 0; 0] 1.7 = Some e
       /\ 0.3 <= estReglerleistung e <= 1.7
       /\ 0.3 <= Js.toFixed 4 (estReglerleistung e) <= 1.7.
Proof.
  split; [discriminate |].
  apply (factor_within_hard_limits CONFIG [0; 0; 0] 1.7). discriminate.
Defined.




(** C9.  The core computation is total on every window of length at least
    1: neither the window length nor 1 + variance is a zero divisor, so the
    only failure of the embedding, a division by zero, cannot occur, and the
    estimator returns a result. *)
Theorem estimator_total (cfg : Config) (w : list Q) (previous : Q) :
  w <> [] ->
  Forall (fun x => 0 <= x) w ->
  ~ Js.len w == 0
  /\ (forall st, windowStats w = Some st -> ~ 1.0 + variance st == 0)
  /\ exists e, estimate cfg w previous = Some e.
Proof.
  intros Hne _.
  pose proof (len_nonempty w Hne) as Hlen.
  destruct (windowStats_nonempty w Hne) as (st & Hst & _ & _ & _ & Hv0).
  destruct (estimate_nonempty cfg w previous Hne) as (st' & _ & He).
  split; [lra |]. split.
  - intros st0 Hst0. assert (st0 = st) by congruence. subst st0. lra.
  - eexists. exact He.
Qed.

Lemma estimator_total_witness :
  ~ Js.len [5; 0; 12] == 0
  /\ (forall st, windowStats [5; 0; 12] = Some st -> ~ 1.0 + variance st == 0)
  /\ exists e, estimate CONFIG [5; 0; 12] (-3) = Some e.
Proof.
  apply (estimator_total CONFIG [5; 0; 12] (-3)).
  - discriminate.
  - repeat constructor; unfold Qle; simpl; lia.
Defined.

End Estimator.

(** ** The regimes *)

Section Regimes.
Import Learning.

Lemma condA_spec (T : Thresholds) (avg3h stab : Q) :
  condA T avg3h stab = true
  <-> avg3h < lowMeanThreshold T /\ stab < lowStabilityThreshold T.
Proof.
  unfold condA. rewrite andb_true_iff, !ltb_lt. reflexivity.
Qed.

Lemma condB_spec (T : Thresholds) (avg3h stab : Q) :
  condB T avg3h stab = true
  <-> highMeanThreshold T < avg3h /\ highStabilityThreshold T < stab.
Proof.
  unfold condB. rewrite andb_true_iff, !ltb_lt. reflexivity.
Qed.

Lemma condC_spec (T : Thresholds) (avg3h stab : Q) :
  condC T avg3h stab = true
  <-> (optimalLow T <= avg3h <= optimalHigh T)
      /\ optimalStabilityThreshold T < stab.
Proof.
  unfold condC. rewrite !andb_true_iff, !leb_le, ltb_lt. reflexivity.
Qed.

(** The chain applies the first case whose condition holds, and only it. *)
Lemma adjustWith_cases (T : Thresholds) (cfg : Config) (avg3h stab r : Q) :
  (condA T avg3h stab = true
   /\ adjustWith T cfg avg3h stab r
      = (Case1_SystemSluggishUnstable, adjustmentA T cfg avg3h r))
  \/ (condA T avg3h stab = false /\ condB T avg3h stab = true
      /\ adjustWith T cfg avg3h stab r
         = (Case2_SystemOverreacting, adjustmentB T r))
  \/ (condA T avg3h stab = false /\ condB T avg3h stab = false
      /\ condC T avg3h stab = true
      /\ adjustWith T cfg avg3h stab r
         = (Case3_SystemInOptimalRange, adjustmentC T r))
  \/ (condA T avg3h stab = false /\ condB T avg3h stab = false
      /\ condC T avg3h stab = false
      /\ adjustWith T cfg avg3h stab r
         = (DefaultConvergence, adjustmentDefault cfg stab r)).
Proof.
  unfold adjustWith.
  destruct (condA T avg3h stab); [left; split; reflexivity |].
  destruct (condB T avg3h stab); [right; left; repeat split |].
  destruct (condC T avg3h stab).
  - right; right; left; repeat split.
  - right; right; right; repeat split.
Qed.

(** With the literals of the script the three conditions exclude each
    other: the means they ask for are disjoint. *)
Lemma source_conditions_disjoint (avg3h stab : Q) :
  (condA sourceThresholds avg3h stab = true ->
   condB sourceThresholds avg3h stab = false
   /\ condC sourceThresholds avg3h stab = false)
  /\ (condB sourceThresholds avg3h stab = true ->
      condC sourceThresholds avg3h stab = false).
Proof.
  split.
  - intros [Hm _]%condA_spec. simpl in Hm. split.
    + destruct (condB sourceThresholds avg3h stab) eqn:E; [| reflexivity].
      apply condB_spec in E. simpl in E. lra.
    + destruct (condC sourceThresholds avg3h stab) eqn:E; [| reflexivity].
      apply condC_spec in E. simpl in E. lra.
  - intros [Hm _]%condB_spec. simpl in Hm.
    destruct (condC sourceThresholds avg3h stab) eqn:E; [| reflexivity].
    apply condC_spec in E. simpl in E. lra.
Qed.

(** The case the script reports, in terms of the mean and the stability. *)
Lemma adjust_case3_iff (cfg : Config) (avg3h stab r : Q) :
  fst (adjust cfg avg3h stab r) = Case3_SystemInOptimalRange
  <-> (8.0 <= avg3h <= 12.0) /\ 0.7 < stab.
Proof.
  rewrite adjust_sourceThresholds.
  change ((8.0 <= avg3h <= 12.0) /\ 0.7 < stab)
    with ((optimalLow sourceThresholds <= avg3h <= optimalHigh sourceThresholds)
          /\ optimalStabilityThreshold sourceThresholds < stab).
  rewrite <- condC_spec.
  destruct (source_conditions_disjoint avg3h stab) as [HA HB].
  destruct (adjustWith_cases sourceThresholds cfg avg3h stab r)
    as [(Ha & ->) | [(Ha & Hb & ->) | [(Ha & Hb & Hc & ->) | (Ha & Hb & Hc & ->)]]];
    simpl fst.
  - destruct (HA Ha) as [_ Hc]. rewrite Hc. split; discriminate.
  - rewrite (HB Hb). split; discriminate.
  - rewrite Hc. split; reflexivity.
  - rewrite Hc. split; discriminate.
Qed.

Lemma adjust_case3_value (cfg : Config) (avg3h stab r : Q) :
  fst (adjust cfg avg3h stab r) = Case3_SystemInOptimalRange ->
  snd (adjust cfg avg3h stab r) = r * 0.99 + 0.01.
Proof.
  rewrite adjust_sourceThresholds.
  destruct (adjustWith_cases sourceThresholds cfg avg3h stab r)
    as [(Ha & ->) | [(Ha & Hb & ->) | [(Ha & Hb & Hc & ->) | (Ha & Hb & Hc & ->)]]];
    simpl; intros H; try discriminate H.
  reflexivity.
Qed.

(** C2, as the spec states it, fails: the window [9, 10, 10, 11] has mean
    10 inside [8, 12] and stability 2/3 above 0.6, the threshold of the
    second case, yet the third case is not selected and the result is not
    previous * 0.99 + (1 - 0.99) * 1.0. *)
Lemma regimeC_gate_counterexample :
  exists e st,
    estimate CONFIG [9; 10; 10; 11] 1.2 = Some e
    /\ windowStats [9; 10; 10; 11] = Some st
    /\ (8.0 <= mean st <= 12.0)
    /\ 0.6 < stability st
    /\ estCase e <> Case3_SystemInOptimalRange
    /\ ~ estReglerleistung e == 1.2 * 0.99 + (1 - 0.99) * 1.0.
Proof.
  eexists. eexists.
  split; [vm_compute; reflexivity |].
  split; [vm_compute; reflexivity |].
  split; [split; qdecide |].
  split; [qdecide |].
  split; [vm_compute; discriminate | qdecide].
Qed.

(** C2, amended.  The third case is selected exactly when the window mean
    lies within [8.0, 12.0] and the stability exceeds 0.7, a threshold of
    its own above the 0.6 of the second case; its adjustment is
    previous * 0.99 + (1 - 0.99) * 1.0, followed by the hard limits. *)
Theorem regimeC_selected_iff (cfg : Config) (w : list Q) (previous : Q) :
  w <> [] ->
  exists e st,
    estimate cfg w previous = Some e
    /\ windowStats w = Some st
    /\ (estCase e = Case3_SystemInOptimalRange
        <-> (8.0 <= mean st <= 12.0) /\ 0.7 < stability st)
    /\ (estCase e = Case3_SystemInOptimalRange ->
        snd (adjust cfg (mean st) (stability st) previous)
        == previous * 0.99 + (1 - 0.99) * 1.0
        /\ estReglerleistung e = hardLimits (previous * 0.99 + 0.01)).
Proof.
  intros Hne.
  destruct (estimate_nonempty cfg w previous Hne) as (st & Hst & He).
  eexists. exists st. split; [exact He |]. split; [exact Hst |]. simpl.
  split; [apply adjust_case3_iff |].
  intros Hc. rewrite (adjust_case3_value _ _ _ _ Hc). split; [lra | reflexivity].
Qed.

Lemma regimeC_selected_iff_witness :
  exists e st,
    estimate CONFIG [10; 10; 10] 1.2 = Some e
    /\ windowStats [10; 10; 10] = Some st
    /\ (estCase e = Case3_SystemInOptimalRange
        <-> (8.0 <= mean st <= 12.0) /\ 0.7 < stability st)
    /\ (estCase e = Case3_SystemInOptimalRange ->
        snd (adjust CONFIG (mean st) (stability st) 1.2)
        == 1.2 * 0.99 + (1 - 0.99) * 1.0
        /\ estReglerleistung e = hardLimits (1.2 * 0.99 + 0.01)).
Proof.
  apply (regimeC_selected_iff CONFIG [10; 10; 10] 1.2). discriminate.
Defined.

(** C3.  Exactly one case is applied per invocation, the first in the order
    1, 2, 3, default whose condition holds.  The script fixes the thresholds
    (and with them cases 1 and 3 cannot both match); for the chain with the
    thresholds abstracted, whenever the conditions of case 1 and of case 3
    hold together, on any window and previous factor, the adjustment of
    case 1 is the one applied. *)
Theorem first_match_wins (T : Thresholds) (cfg : Config)
        (w : list Q) (previous : Q) (st : Stats) :
  windowStats w = Some st ->
  (estimate cfg w previous = estimateWith sourceThresholds cfg w previous)
  /\ (let a := condA T (mean st) (stability st) in
      let b := condB T (mean st) (stability st) in
      let c := condC T (mean st) (stability st) in
      adjustWith T cfg (mean st) (stability st) previous
      = if a then (Case1_SystemSluggishUnstable,
                   adjustmentA T cfg (mean st) previous)
        else if b then (Case2_SystemOverreacting, adjustmentB T previous)
        else if c then (Case3_SystemInOptimalRange, adjustmentC T previous)
        else (DefaultConvergence,
              adjustmentDefault cfg (stability st) previous))
  /\ ((mean st < lowMeanThreshold T
       /\ stability st < lowStabilityThreshold T) ->
      ((optimalLow T <= mean st <= optimalHigh T)
       /\ optimalStabilityThreshold T < stability st) ->
      estimateWith T cfg w previous
      = Some {| estStability := stability st;
                estReglerleistung :=
                  hardLimits (adjustmentA T cfg (mean st) previous);
                estCase := Case1_SystemSluggishUnstable |}).
Proof.
  intros Hst. split; [reflexivity |]. split; [reflexivity |].
  intros Ha%condA_spec _.
  unfold estimateWith. rewrite Hst. simpl.
  destruct (adjustWith_cases T cfg (mean st) (stability st) previous)
    as [(_ & ->) | [(Ha' & _) | [(Ha' & _) | (Ha' & _)]]];
    [reflexivity | congruence | congruence | congruence].
Qed.

Lemma first_match_wins_witness :
  exists st,
    windowStats [9; 10; 10; 11] = Some st
    /\ estimateWith overlappingThresholds CONFIG [9; 10; 10; 11] 1.0
       = Some {| estStability := stability st;
                 estReglerleistung :=
                   hardLimits
                     (adjustmentA overlappingThresholds CONFIG (mean st) 1.0);
                 estCase := Case1_SystemSluggishUnstable |}.
Proof.
  eexists. split; [vm_compute; reflexivity |].
  match goal with
  | |- context [stability ?s] =>
      assert (Hst : windowStats [9; 10; 10; 11] = Some s)
        by (vm_compute; reflexivity);
      destruct (first_match_wins overlappingThresholds CONFIG
                  [9; 10; 10; 11] 1.0 s Hst) as (_ & _ & H)
  end.
  apply H.
  - split; qdecide.
  - split; [split |]; qdecide.
Defined.

End Regimes.

(** ** The second case, constant windows and the default case *)

Section Cases.
Import Learning.

Lemma adjust_case2 (cfg : Config) (avg3h stab r : Q) :
  16.0 < avg3h -> 0.6 < stab ->
  adjust cfg avg3h stab r = (Case2_SystemOverreacting, r * 0.95).
Proof.
  intros Hm Hs. unfold adjust.
  assert (H1 : Js.ltb avg3h 7.0 = false) by (apply ltb_ge; lra).
  assert (H2 : Js.ltb 16.0 avg3h = true) by (apply ltb_lt; lra).
  assert (H3 : Js.ltb 0.6 stab = true) by (apply ltb_lt; lra).
  rewrite H1, H2, H3. reflexivity.
Qed.

(** C5.  When the window mean exceeds 16.0 and the stability exceeds 0.6,
    the adjustment before the hard limits is previous * 0.95, whatever the
    distance of the mean from the threshold; a window of 6 samples with mean
    18.0 and stability above 0.6 takes the previous factor 1.2 to 1.14. *)
Theorem regimeB_pure_decay (cfg : Config) (w : list Q) (st : Stats) :
  windowStats w = Some st ->
  16.0 < mean st ->
  0.6 < stability st ->
  (forall previous,
     adjust cfg (mean st) (stability st) previous
     = (Case2_SystemOverreacting, previous * 0.95))
  /\ (length w = 6%nat -> mean st == 18.0 ->
      exists e,
        estimate cfg w 1.2 = Some e
        /\ estCase e = Case2_SystemOverreacting
        /\ estReglerleistung e == 1.2 * 0.95
        /\ estReglerleistung e == 1.14).
Proof.
  intros Hst Hm Hs. split; [intros previous; now apply adjust_case2 |].
  intros _ _. unfold estimate. rewrite Hst. simpl.
  rewrite (adjust_case2 cfg _ _ 1.2 Hm Hs).
  eexists. split; [reflexivity |]. simpl. split; [reflexivity |].
  rewrite hardLimits_inside by (split; qdecide). split; qdecide.
Qed.

Lemma regimeB_pure_decay_witness :
  exists st,
    windowStats [18; 17; 19; 18; 18; 18] = Some st
    /\ (forall previous,
          adjust CONFIG (mean st) (stability st) previous
          = (Case2_SystemOverreacting, previous * 0.95))
    /\ exists e,
         estimate CONFIG [18; 17; 19; 18; 18; 18] 1.2 = Some e
         /\ estCase e = Case2_SystemOverreacting
         /\ estReglerleistung e == 1.2 * 0.95
         /\ estReglerleistung e == 1.14.
Proof.
  eexists. split; [vm_compute; reflexivity |].
  match goal with
  | |- context [stability ?s] =>
      assert (Hst : windowStats [18; 17; 19; 18; 18; 18] = Some s)
        by (vm_compute; reflexivity);
      destruct (regimeB_pure_decay CONFIG [18; 17; 19; 18; 18; 18] s Hst)
        as (H1 & H2); [qdecide | qdecide |]
  end.
  split; [exact H1 |].
  apply H2; [reflexivity | qdecide].
Defined.








(** Six times the double next to 67115468.6: the score is 1 - 2^-52. *)
Example constant_window_below_one :
  exists v,
    Learning64.lit 67115468.6 = Binary64.Fin v
    /\ Learning64.stability (Learning64.windowStats (repeat (Binary64.Fin v) 6))
       = Binary64.Fin (4503599627370495 # 4503599627370496).
Proof.
  eexists. split; [vm_compute; reflexivity |]. vm_compute. reflexivity.
Qed.

(** The default case moves the factor by a fraction of its distance to 1. *)
Lemma default_step_between (rate stab r : Q) :
  0 <= rate * stab <= 1 ->
  let r' := r + (1.0 - r) * (rate * stab) in
  (r <= 1 -> r <= r' <= 1) /\ (1 <= r -> 1 <= r' <= r).
Proof.
  intros [H0 H1] r'. unfold r'. set (k := rate * stab) in *.
  split; intros Hr; split; nra.
Qed.

(** C10.  A step of the default case never overshoots 1: for a stability in
    (0, 1] the result before the hard limits,
    previous + (1.0 - previous) * 0.02 * stability, lies between the previous
    factor and 1, so its distance to 1 does not grow and it does not cross
    from one side of 1 to the other. *)
Theorem default_never_overshoots (avg3h stab previous : Q) :
  0 < stab <= 1 ->
  fst (adjust CONFIG avg3h stab previous) = DefaultConvergence ->
  let r := snd (adjust CONFIG avg3h stab previous) in
  r == previous + (1.0 - previous) * 0.02 * stab
  /\ (previous <= 1 -> previous <= r <= 1)
  /\ (1 <= previous -> 1 <= r <= previous)
  /\ Qabs (r - 1) <= Qabs (previous - 1).
Proof.
  intros Hs Hcase r.
  assert (Hr : r = previous + (1.0 - previous) * (0.02 * stab)).
  { unfold r. revert Hcase. rewrite adjust_sourceThresholds.
    destruct (adjustWith_cases sourceThresholds CONFIG avg3h stab previous)
      as [(_ & ->) | [(_ & _ & ->) | [(_ & _ & _ & ->) | (_ & _ & _ & ->)]]];
      simpl; intros H; try discriminate H.
    reflexivity. }
  assert (Hk : 0 <= 0.02 * stab <= 1) by (split; lra).
  destruct (default_step_between 0.02 stab previous Hk) as [Hlow Hhigh].
  rewrite <- Hr in Hlow, Hhigh.
  split; [rewrite Hr; lra |]. split; [exact Hlow |]. split; [exact Hhigh |].
  destruct (Qlt_le_dec previous 1) as [Hlt | Hge].
  - assert (previous <= 1) as Hle by lra. specialize (Hlow Hle).
    rewrite !Qabs_neg by lra. lra.
  - specialize (Hhigh Hge). rewrite !Qabs_pos by lra. lra.
Qed.

Lemma default_never_overshoots_witness :
  let r := snd (adjust CONFIG 5 (1 # 2) 0.5) in
  r == 0.5 + (1.0 - 0.5) * 0.02 * (1 # 2)
  /\ (0.5 <= 1 -> 0.5 <= r <= 1)
  /\ (1 <= 0.5 -> 1 <= r <= 0.5)
  /\ Qabs (r - 1) <= Qabs (0.5 - 1).
Proof.
  apply (default_never_overshoots 5 (1 # 2) 0.5).
  - split; qdecide.
  - vm_compute. reflexivity.
Defined.

End Cases.

(** ** One run of [main] *)

Section Main.
Import Learning.

Lemma sanitize_length (items : list Item) :
  length (sanitize (map val items))
  = length (List.filter (fun item => valid (val item)) items).
Proof.
  induction items as [| item items IH]; simpl; [reflexivity |].
  destruct (val item) as [q |]; simpl.
  - destruct (Js.leb 0 q); simpl; congruence.
  - exact IH.
Qed.

(** Every sample that survives the filter is non-negative. *)
Lemma sanitize_nonneg (vals : list (option Q)) :
  Forall (fun x => 0 <= x) (sanitize vals).
Proof.
  induction vals as [| v vals IH]; simpl; [constructor |].
  destruct v as [q |]; simpl; [| exact IH].
  destruct (Js.leb 0 q) eqn:E; [| exact IH].
  constructor; [apply leb_le, E | exact IH].
Qed.

(** On a reply that skips the cycle, the [try] block throws or leaves fewer
    than 3 samples. *)
Lemma queryHistory_skips (reply : Reply) :
  SkipsCycle reply ->
  queryHistory reply = None
  \/ exists historyData,
       queryHistory reply = Some historyData /\ (length historyData < 3)%nat.
Proof.
  intros [| c msg result | error | error | error items Hfew]; simpl.
  - now left.
  - now left.
  - left. now destruct error as [[| ? ?] |].
  - left. now destruct error as [[| ? ?] |].
  - destruct error as [[| ? ?] |]; [| now left |].
    + destruct items as [| item items]; [now left |]. right.
      eexists. split; [reflexivity |]. now rewrite sanitize_length.
    + destruct items as [| item items]; [now left |]. right.
      eexists. split; [reflexivity |]. now rewrite sanitize_length.
Qed.

Lemma sliceLast_nonempty {A : Type} (n : nat) (arr : list A) :
  arr <> [] -> Js.sliceLast n arr <> [].
Proof.
  intros Hne. destruct n as [| n]; [exact Hne |].
  unfold Js.sliceLast. intros Habs.
  apply (f_equal (@length A)) in Habs. rewrite length_skipn in Habs.
  destruct arr as [| a arr]; [congruence |]. simpl length in Habs. lia.
Qed.

(** The script never computes with NaN: when it reaches step 3 the window
    is not empty. *)
Lemma main_is_a_number (cfg : Config) (store : gmap string Js.value)
      (reply : Reply) :
  snd (main cfg store reply) <> NotANumber.
Proof.
  unfold main.
  destruct (negb (Js.truthy _)); [discriminate |].
  destruct (_ || _); [discriminate |].
  destruct (queryHistory reply) as [historyData |]; [| discriminate].
  destruct (length historyData <? 3)%nat eqn:Hlen; [discriminate |].
  apply Nat.ltb_ge in Hlen.
  assert (Hne : historyData <> []).
  { intros ->. simpl in Hlen. lia. }
  destruct (estimate_nonempty cfg _ (currentReglerleistung cfg store)
              (sliceLast_nonempty (stabilityCalculationHours cfg * 2) _ Hne))
    as (st & _ & ->).
  discriminate.
Qed.

(** C7.  When the history query is rejected, carries an error, carries no
    or empty data, or leaves fewer than 3 valid samples, the cycle ends
    without learning and without a write: the state store, and with it the
    performance-factor and the stability datapoint, is the one before. *)
Theorem skipped_cycle_retains_state (cfg : Config)
        (store : gmap string Js.value) (reply : Reply) :
  SkipsCycle reply ->
  fst (main cfg store reply) = store
  /\ fst (main cfg store reply) !! reglerleistungId cfg
     = store !! reglerleistungId cfg
  /\ fst (main cfg store reply) !! systemStabilitaetId cfg
     = store !! systemStabilitaetId cfg
  /\ forall e, snd (main cfg store reply) <> Learned e.
Proof.
  intros Hskip.
  assert (H : fst (main cfg store reply) = store
              /\ forall e, snd (main cfg store reply) <> Learned e).
  { unfold main.
    destruct (negb (Js.truthy _)); [split; [reflexivity | discriminate] |].
    destruct (_ || _); [split; [reflexivity | discriminate] |].
    destruct (queryHistory_skips reply Hskip) as [-> | (h & -> & Hlen)].
    - split; [reflexivity | discriminate].
    - apply Nat.ltb_lt in Hlen. rewrite Hlen.
      split; [reflexivity | discriminate]. }
  destruct H as [Hstore Hout]. rewrite Hstore. repeat split. exact Hout.
Qed.

Lemma skipped_cycle_retains_state_witness :
  let store : gmap string Js.value :=
    {[ svHeizperiodeId CONFIG := Js.Bool true;
       spreizungSensorId CONFIG := Js.Num 5.5;
       reglerleistungId CONFIG := Js.Num 1.14;
       systemStabilitaetId CONFIG := Js.Num 0.75 ]} in
  let reply :=
    Answer None (Some [ {| ts := 0; val := Some 6.0 |};
                        {| ts := 1; val := None |};
                        {| ts := 2; val := Some (-1) |};
                        {| ts := 3; val := Some 7.5 |} ]) in
  fst (main CONFIG store reply) = store
  /\ fst (main CONFIG store reply) !! reglerleistungId CONFIG
     = store !! reglerleistungId CONFIG
  /\ fst (main CONFIG store reply) !! systemStabilitaetId CONFIG
     = store !! systemStabilitaetId CONFIG
  /\ forall e, snd (main CONFIG store reply) <> Learned e.
Proof.
  intros store reply.
  apply (skipped_cycle_retains_state CONFIG store reply).
  apply skip_few. vm_compute. lia.
Defined.

(** A complete cycle on six samples around 18: the second case applies, and
    both datapoints are written, rounded to four decimals. *)
Example main_full_cycle :
  let store : gmap string Js.value :=
    {[ svHeizperiodeId CONFIG := Js.Bool true;
       spreizungSensorId CONFIG := Js.Num 5.5;
       reglerleistungId CONFIG := Js.Num 1.2 ]} in
  let reply :=
    Answer None
           (Some (map (fun v => {| ts := 0; val := Some v |})
                      [3; 18; 17; 19; 18; 18; 18])) in
  let store' := fst (main CONFIG store reply) in
  store' !! reglerleistungId CONFIG = Some (Js.Num (Qred 1.14))
  /\ store' !! systemStabilitaetId CONFIG = Some (Js.Num (Qred 0.75))
  /\ store' !! svHeizperiodeId CONFIG = Some (Js.Bool true).
Proof. vm_compute. repeat split. Qed.

(** In simulation the same cycle computes but writes nothing. *)
Example main_simulation_writes_nothing :
  let cfg :=
    {| simulationAktiv := true;
       stabilityCalculationHours := stabilityCalculationHours CONFIG;
       basisLernrate := basisLernrate CONFIG;
       minSpreizungForLearning := minSpreizungForLearning CONFIG;
       spreizungSensorId := spreizungSensorId CONFIG;
       svHeizperiodeId := svHeizperiodeId CONFIG;
       reglerleistungId := reglerleistungId CONFIG;
       systemStabilitaetId := systemStabilitaetId CONFIG;
       simHeizperiode := true;
       simAktuelleSpreizung := 5.5 |} in
  let reply :=
    Answer None
           (Some (map (fun v => {| ts := 0; val := Some v |})
                      [18; 17; 19; 18; 18; 18])) in
  fst (main cfg ∅ reply) = ∅
  /\ exists e, snd (main cfg ∅ reply) = Learned e
               /\ estCase e = Case2_SystemOverreacting.
Proof.
  vm_compute. split; [reflexivity |]. eexists. split; reflexivity.
Qed.

(** A completed cycle, outside simulation, writes a factor inside the hard
    limits. *)
Lemma learned_cycle_writes_limited_factor (cfg : Config)
      (store : gmap string Js.value) (reply : Reply) (e : Estimate) :
  simulationAktiv cfg = false ->
  snd (main cfg store reply) = Learned e ->
  exists r,
    fst (main cfg store reply) !! reglerleistungId cfg = Some (Js.Num r)
    /\ 0.3 <= r <= 1.7.
Proof.
  intros Hsim. unfold main.
  destruct (negb (Js.truthy _)); [discriminate |].
  destruct (_ || _); [discriminate |].
  destruct (queryHistory reply) as [historyData |]; [| discriminate].
  destruct (length historyData <? 3)%nat eqn:Hlen; [discriminate |].
  apply Nat.ltb_ge in Hlen.
  assert (Hne : historyData <> []).
  { intros ->. simpl in Hlen. lia. }
  destruct (estimate_nonempty cfg _ (currentReglerleistung cfg store)
              (sliceLast_nonempty (stabilityCalculationHours cfg * 2) _ Hne))
    as (st & _ & ->).
  simpl. intros [= <-]. unfold writeResults, setState. rewrite Hsim.
  eexists. split; [apply lookup_insert_eq |].
  simpl. apply toFixed4_range, hardLimits_range.
Qed.

End Main.

(** ** The learned factor in the room script *)

Section RoomScript.

(** The weather compensation runs exactly when no special case applies, the
    outdoor sensor is plausible and the outdoor temperature is below the
    neutral temperature; otherwise the base temperature is left as it is. *)
Lemma setpointAfterWeather_cases (cfg : Room.Config)
      (store : gmap string Js.value) :
  let states := Room.collect cfg store in
  let t := Js.toNumber (Room.aussenTempSensor states) in
  let base := fst (Room.baseTemperature cfg states) in
  Room.setpointAfterWeather cfg store
  = if negb (snd (Room.baseTemperature cfg states))
       && Room.aussenSensorOK states
       && Js.ltb t (Room.aussenTempNeutral cfg)
    then base + (Room.aussenTempNeutral cfg - t)
                * (Room.heizkurvenfaktor cfg * Room.learnedFactor states)
    else base.
Proof.
  intros states t base. unfold Room.setpointAfterWeather.
  fold states. subst base.
  destruct (Room.baseTemperature cfg states) as [b sonder]. simpl.
  destruct sonder; simpl; [reflexivity |].
  unfold Room.weatherCompensation. fold t.
  destruct (Room.aussenSensorOK states); simpl; [| reflexivity].
  destruct (Js.ltb t (Room.aussenTempNeutral cfg)); reflexivity.
Qed.

(** C8.  In the room script, when the weather compensation runs (no special
    case, plausible outdoor sensor) and the outdoor temperature is below the
    neutral temperature, the setpoint rises by
    (neutral - outdoor) * heizkurvenfaktor * reglerleistung, where
    reglerleistung is the number stored in the performance-factor datapoint
    (a stored number other than 0), and 1.0 when that datapoint does not
    exist.  The learning script reads the same datapoint: its estimator is
    run on the stored number, and on 1.0 when the datapoint does not
    exist. *)
Theorem learned_factor_scales_weather_compensation
        (cfg : Room.Config) (lcfg : Learning.Config)
        (store : gmap string Js.value) (base : Q) :
  let states := Room.collect cfg store in
  let t := Js.toNumber (Room.aussenTempSensor states) in
  let increase := Room.setpointAfterWeather cfg store - base in
  (Room.baseTemperature cfg states = (base, false) ->
   Room.aussenSensorOK states = true ->
   t < Room.aussenTempNeutral cfg ->
   increase == (Room.aussenTempNeutral cfg - t)
               * Room.heizkurvenfaktor cfg * Room.learnedFactor states
   /\ (forall r,
         store !! Room.idReglerleistung cfg = Some (Js.Num r) ->
         ~ r == 0 ->
         increase
         == (Room.aussenTempNeutral cfg - t) * Room.heizkurvenfaktor cfg * r)
   /\ (store !! Room.idReglerleistung cfg = None ->
       increase
       == (Room.aussenTempNeutral cfg - t) * Room.heizkurvenfaktor cfg * 1.0))
  /\ (store !! Room.idReglerleistung cfg = None ->
      Room.learnedFactor states = 1.0)
  /\ (forall r,
        store !! Room.idReglerleistung cfg = Some (Js.Num r) ->
        ~ r == 0 ->
        Room.learnedFactor states = r)
  /\ (store !! Learning.reglerleistungId lcfg = None ->
      Learning.currentReglerleistung lcfg store = 1.0
      /\ forall reply e,
           snd (Learning.main lcfg store reply) = Learning.Learned e ->
           exists w, Learning.estimate lcfg w 1.0 = Some e)
  /\ (forall r,
        store !! Learning.reglerleistungId lcfg = Some (Js.Num r) ->
        Learning.currentReglerleistung lcfg store = r
        /\ forall reply e,
             snd (Learning.main lcfg store reply) = Learning.Learned e ->
             exists w, Learning.estimate lcfg w r = Some e).
Proof.
  intros states t increase.
  assert (Habsent : store !! Room.idReglerleistung cfg = None ->
                    Room.learnedFactor states = 1.0).
  { intros Habs. unfold Room.learnedFactor, states. simpl.
    unfold Room.fetch. rewrite Habs. reflexivity. }
  assert (Hstored : forall r,
             store !! Room.idReglerleistung cfg = Some (Js.Num r) ->
             ~ r == 0 -> Room.learnedFactor states = r).
  { intros r Hr Hnz. unfold Room.learnedFactor, states. simpl.
    unfold Room.fetch. rewrite Hr. unfold Js.orElse. simpl.
    destruct (Qeq_bool r 0) eqn:E; [| reflexivity].
    apply Qeq_bool_iff in E. contradiction. }
  assert (Hmain : forall previous,
             Learning.currentReglerleistung lcfg store = previous ->
             forall reply e,
               snd (Learning.main lcfg store reply) = Learning.Learned e ->
               exists w, Learning.estimate lcfg w previous = Some e).
  { intros previous Hcur reply e. unfold Learning.main. rewrite Hcur.
    destruct (negb (Js.truthy _)); [discriminate |].
    destruct (_ || _); [discriminate |].
    destruct (Learning.queryHistory reply) as [historyData |]; [| discriminate].
    destruct (length historyData <? 3)%nat; [discriminate |].
    destruct (Learning.estimate lcfg _ previous) as [e' |] eqn:He;
      [| discriminate].
    simpl. intros [= <-]. eexists. exact He. }
  split; [| split; [exact Habsent | split; [exact Hstored | split]]].
  - intros Hbase Hok Ht.
    assert (H : increase
                == (Room.aussenTempNeutral cfg - t)
                   * Room.heizkurvenfaktor cfg * Room.learnedFactor states).
    { pose proof (setpointAfterWeather_cases cfg store) as H. cbv zeta in H.
      fold states in H. fold t in H. apply ltb_lt in Ht.
      unfold increase. rewrite H, Hbase, Hok, Ht. cbn [fst snd negb andb].
      clearbody t. ring. }
    split; [exact H | split].
    + intros r Hr Hnz. rewrite H, (Hstored r Hr Hnz). reflexivity.
    + intros Habs. rewrite H, (Habsent Habs). reflexivity.
  - intros Habs.
    assert (Hcur : Learning.currentReglerleistung lcfg store = 1.0).
    { unfold Learning.currentReglerleistung, Learning.getState.
      now rewrite Habs. }
    split; [exact Hcur | exact (Hmain _ Hcur)].
  - intros r Hr.
    assert (Hcur : Learning.currentReglerleistung lcfg store = r).
    { unfold Learning.currentReglerleistung, Learning.getState.
      now rewrite Hr. }
    split; [exact Hcur | exact (Hmain _ Hcur)].
Qed.

Lemma learned_factor_scales_weather_compensation_witness :
  let absent : gmap string Js.value :=
    {[ Room.idHeizPeriode Room.CONFIG := Js.Bool true;
       Room.idAnwesenheit Room.CONFIG := Js.Bool true;
       Room.idTuerSensor Room.CONFIG := Js.Num 0;
       Room.idAussenTempSensor Room.CONFIG := Js.Num 2.0 ]} in
  let stored : gmap string Js.value :=
    <[ Room.idReglerleistung Room.CONFIG := Js.Num 1.14 ]> absent in
  (Room.setpointAfterWeather Room.CONFIG absent - 21.0
   == (Room.aussenTempNeutral Room.CONFIG - 2.0)
      * Room.heizkurvenfaktor Room.CONFIG * 1.0)
  /\ (Room.setpointAfterWeather Room.CONFIG stored - 21.0
      == (Room.aussenTempNeutral Room.CONFIG - 2.0)
         * Room.heizkurvenfaktor Room.CONFIG * 1.14)
  /\ Room.learnedFactor (Room.collect Room.CONFIG absent) = 1.0
  /\ Room.learnedFactor (Room.collect Room.CONFIG stored) = 1.14
  /\ Learning.currentReglerleistung Learning.CONFIG absent = 1.0
  /\ Learning.currentReglerleistung Learning.CONFIG stored = 1.14.
Proof.
  intros absent stored.
  destruct (learned_factor_scales_weather_compensation
              Room.CONFIG Learning.CONFIG absent 21.0)
    as (A1 & A2 & _ & A4 & _).
  destruct (learned_factor_scales_weather_compensation
              Room.CONFIG Learning.CONFIG stored 21.0)
    as (S1 & _ & S3 & _ & S5).
  cbv zeta in A1, S1.
  destruct A1 as (_ & _ & A1);
    [vm_compute; reflexivity | vm_compute; reflexivity | qdecide |].
  destruct S1 as (_ & S1 & _);
    [vm_compute; reflexivity | vm_compute; reflexivity | qdecide |].
  split; [apply A1; vm_compute; reflexivity |].
  split; [apply (S1 1.14); [vm_compute; reflexivity | qdecide] |].
  split; [apply A2; vm_compute; reflexivity |].
  split; [apply (S3 1.14); [vm_compute; reflexivity | qdecide] |].
  split; [apply A4; vm_compute; reflexivity |].
  apply (S5 1.14). vm_compute. reflexivity.
Defined.

End RoomScript.

(** ** More about the learning script *)

Section LearningCycle.
Import Learning.


(** [main] unfolded on a run that completes a learning cycle. *)
Lemma main_learned_inv (cfg : Config) (store : gmap string Js.value)
      (reply : Reply) (e : Estimate) :
  snd (main cfg store reply) = Learned e ->
  exists historyData,
    queryHistory reply = Some historyData
    /\ (3 <= length historyData)%nat
    /\ estimate cfg
         (Js.sliceLast (stabilityCalculationHours cfg * 2) historyData)
         (currentReglerleistung cfg store) = Some e
    /\ fst (main cfg store reply) = writeResults cfg store e.
Proof.
  unfold main.
  destruct (negb (Js.truthy _)); [discriminate |].
  destruct (_ || _); [discriminate |].
  destruct (queryHistory reply) as [historyData |]; [| discriminate].
  destruct (length historyData <? 3)%nat eqn:Hlen; [discriminate |].
  apply Nat.ltb_ge in Hlen.
  destruct (estimate cfg _ _) as [e' |] eqn:He; [| discriminate].
  simpl. intros [= <-]. exists historyData. repeat split; assumption.
Qed.

(** Every run of [main] either leaves the store as it is or is a completed
    cycle followed by the writes of step 5. *)
Lemma main_store_cases (cfg : Config) (store : gmap string Js.value)
      (reply : Reply) :
  fst (main cfg store reply) = store
  \/ exists e, snd (main cfg store reply) = Learned e
               /\ fst (main cfg store reply) = writeResults cfg store e.
Proof.
  unfold main.
  destruct (negb (Js.truthy _)); [now left |].
  destruct (_ || _); [now left |].
  destruct (queryHistory reply) as [historyData |]; [| now left].
  destruct (length historyData <? 3)%nat; [now left |].
  destruct (estimate cfg _ _) as [e |]; [| now left].
  right. exists e. split; reflexivity.
Qed.

(** X1.  Outside simulation, when the heating-period state is absent or
    falsy, or the spread state is absent while the threshold is positive, is
    no number, or is below the threshold, the run ends before the history
    reply is looked at and the store is the one before. *)
Theorem main_guards_keep_store (cfg : Config) (store : gmap string Js.value)
        (reply : Reply) :
  simulationAktiv cfg = false ->
  (match store !! svHeizperiodeId cfg with
   | Some v => Js.truthy v = false
   | None => True
   end
   \/ match store !! spreizungSensorId cfg with
      | Some (Js.Num q) => q < minSpreizungForLearning cfg
      | Some _ => True
      | None => 0 < minSpreizungForLearning cfg
      end) ->
  main cfg store reply = (store, HeatingPeriodOff)
  \/ main cfg store reply = (store, SpreadBelowThreshold).
Proof.
  intros Hsim Hguard. unfold main, getState. rewrite Hsim.
  destruct Hguard as [Hheat | Hspread].
  - left. destruct (store !! svHeizperiodeId cfg) as [v |].
    + now rewrite Hheat.
    + reflexivity.
  - destruct (negb (Js.truthy _)); [now left |]. right.
    destruct (store !! spreizungSensorId cfg) as [[| b | q] |]; simpl;
      try reflexivity.
    + apply ltb_lt in Hspread. now rewrite Hspread.
    + apply ltb_lt in Hspread. now rewrite Hspread.
Qed.

Lemma main_guards_keep_store_witness :
  let store : gmap string Js.value :=
    {[ svHeizperiodeId CONFIG := Js.Bool true;
       spreizungSensorId CONFIG := Js.Num 1.5;
       reglerleistungId CONFIG := Js.Num 1.14 ]} in
  main CONFIG store Rejected = (store, HeatingPeriodOff)
  \/ main CONFIG store Rejected = (store, SpreadBelowThreshold).
Proof.
  intros store.
  apply (main_guards_keep_store CONFIG store Rejected); [reflexivity |].
  right. vm_compute. reflexivity.
Defined.

(** X2.  A run of [main] changes no datapoint other than the two output
    datapoints, and in simulation it changes none at all. *)
Theorem main_writes_only_outputs (cfg : Config)
        (store : gmap string Js.value) (reply : Reply) :
  (forall id,
     id <> reglerleistungId cfg -> id <> systemStabilitaetId cfg ->
     fst (main cfg store reply) !! id = store !! id)
  /\ (simulationAktiv cfg = true -> fst (main cfg store reply) = store).
Proof.
  destruct (main_store_cases cfg store reply) as [-> | (e & _ & ->)].
  - split; [reflexivity | reflexivity].
  - unfold writeResults, setState. split.
    + intros id H1 H2. destruct (simulationAktiv cfg); [reflexivity |].
      rewrite !lookup_insert_ne by congruence. reflexivity.
    + now intros ->.
Qed.

Lemma main_writes_only_outputs_witness :
  let store : gmap string Js.value :=
    {[ svHeizperiodeId CONFIG := Js.Bool true;
       spreizungSensorId CONFIG := Js.Num 5.5 ]} in
  let reply :=
    Answer None
           (Some (map (fun v => {| ts := 0; val := Some v |}) [9; 10; 11])) in
  fst (main CONFIG store reply) !! spreizungSensorId CONFIG
  = store !! spreizungSensorId CONFIG.
Proof.
  intros store reply.
  destruct (main_writes_only_outputs CONFIG store reply) as [H _].
  apply H; discriminate.
Defined.


(** A window that fluctuates strongly is written as stability 0. *)
Example written_stability_rounds_to_zero :
  let store : gmap string Js.value :=
    {[ svHeizperiodeId CONFIG := Js.Bool true;
       spreizungSensorId CONFIG := Js.Num 5.5 ]} in
  let reply :=
    Answer None
           (Some (map (fun v => {| ts := 0; val := Some v |}) [0; 1000; 0])) in
  fst (main CONFIG store reply) !! systemStabilitaetId CONFIG
  = Some (Js.Num 0).
Proof. vm_compute. reflexivity. Qed.


End LearningCycle.

(** ** The window and the size of a learning step *)

Section LearningStep.
Import Learning.

Lemma sanitize_app (a b : list (option Q)) :
  sanitize (a ++ b) = sanitize a ++ sanitize b.
Proof.
  induction a as [| v a IH]; simpl; [reflexivity |].
  destruct (valid v); [| exact IH].
  destruct v; [simpl; now rewrite IH | exact IH].
Qed.

Lemma sliceLast_app {A : Type} (a b : list A) :
  b <> [] -> Js.sliceLast (length b) (a ++ b) = b.
Proof.
  intros Hb. unfold Js.sliceLast.
  destruct (length b) as [| n] eqn:Hn.
  - destruct b; [congruence | discriminate].
  - rewrite length_app, Hn.
    replace (length a + S n - S n)%nat with (length a + 0)%nat by lia.
    rewrite skipn_app, Nat.add_0_r, skipn_all.
    replace (length a - length a)%nat with 0%nat by lia. reflexivity.
Qed.

Lemma sliceLast_all {A : Type} (b : list A) :
  Js.sliceLast (length b) b = b.
Proof.
  unfold Js.sliceLast. destruct (length b) eqn:Hn; [reflexivity |].
  now rewrite Nat.sub_diag.
Qed.

(** X4.  Only the most recent [stabilityCalculationHours * 2] valid samples
    count: when the last samples of the reply already contain that many
    valid ones (at least 3), any older samples in front of them change
    neither the outcome nor the writes of [main]. *)
Theorem main_ignores_older_samples (cfg : Config)
        (store : gmap string Js.value) (error : option string)
        (older recent : list Item) :
  length (sanitize (map val recent))
  = (stabilityCalculationHours cfg * 2)%nat ->
  (3 <= length (sanitize (map val recent)))%nat ->
  main cfg store (Answer error (Some (older ++ recent)))
  = main cfg store (Answer error (Some recent)).
Proof.
  intros Hlen H3.
  assert (Hrec : sanitize (map val recent) <> []).
  { intros E. rewrite E in H3. simpl in H3. lia. }
  assert (Hne : recent <> []) by (intros ->; now apply Hrec).
  assert (Hq : queryHistory (Answer error (Some (older ++ recent)))
               = match error with
                 | Some (String _ _) => None
                 | _ => Some (sanitize (map val older)
                              ++ sanitize (map val recent))
                 end).
  { simpl. rewrite <- sanitize_app, <- map_app.
    destruct (older ++ recent) eqn:E; [| reflexivity].
    apply app_eq_nil in E. destruct E as [_ E]. congruence. }
  assert (Hq' : queryHistory (Answer error (Some recent))
                = match error with
                  | Some (String _ _) => None
                  | _ => Some (sanitize (map val recent))
                  end).
  { simpl. destruct recent; [congruence | reflexivity]. }
  unfold main. rewrite Hq, Hq'.
  destruct (negb (Js.truthy _)); [reflexivity |].
  destruct (_ || _); [reflexivity |].
  assert (Hsame :
    forall h, h = sanitize (map val older) ++ sanitize (map val recent) ->
    (if (length h <? 3)%nat
     then (store, NotEnoughData (length h))
     else match estimate cfg
                  (Js.sliceLast (stabilityCalculationHours cfg * 2) h)
                  (currentReglerleistung cfg store) with
          | Some e => (writeResults cfg store e, Learned e)
          | None => (store, NotANumber)
          end)
    = (if (length (sanitize (map val recent)) <? 3)%nat
       then (store, NotEnoughData (length (sanitize (map val recent))))
       else match estimate cfg
                    (Js.sliceLast (stabilityCalculationHours cfg * 2)
                                  (sanitize (map val recent)))
                    (currentReglerleistung cfg store) with
            | Some e => (writeResults cfg store e, Learned e)
            | None => (store, NotANumber)
            end)).
  { intros h ->.
    assert (H1 : (length (sanitize (map val older)
                          ++ sanitize (map val recent)) <? 3)%nat = false).
    { apply Nat.ltb_ge. rewrite length_app. lia. }
    assert (H2 : (length (sanitize (map val recent)) <? 3)%nat = false)
      by (apply Nat.ltb_ge; lia).
    rewrite H1, H2, <- Hlen, sliceLast_app, sliceLast_all by assumption.
    reflexivity. }
  destruct error as [[| c msg] |]; [| reflexivity |]; now apply Hsame.
Qed.

Lemma main_ignores_older_samples_witness :
  let sample v := {| ts := 0; val := Some v |} in
  let older := [sample 3; {| ts := 0; val := None |}; sample 40] in
  let recent := map sample [18; 17; 19; 18; 18; 18] in
  main CONFIG ∅ (Answer None (Some (older ++ recent)))
  = main CONFIG ∅ (Answer None (Some recent)).
Proof.
  intros sample older recent.
  apply (main_ignores_older_samples CONFIG ∅ None older recent).
  - reflexivity.
  - vm_compute. lia.
Defined.

(** The mean of non-negative samples is non-negative, the stability of any
    non-empty window lies in (0, 1]. *)
Lemma windowStats_ranges (w : list Q) (st : Stats) :
  windowStats w = Some st ->
  Forall (fun x => 0 <= x) w ->
  0 <= mean st /\ 0 < stability st <= 1.
Proof.
  intros Hst Hw.
  assert (Hne : w <> []) by (intros ->; discriminate Hst).
  destruct (windowStats_nonempty w Hne) as (st' & Hst' & Hm & _ & Hs & Hv).
  assert (st' = st) by congruence. subst st'. split.
  - rewrite Hm. apply Qle_shift_div_l; [now apply len_nonempty |].
    pose proof (sum_nonneg w Hw). lra.
  - rewrite Hs. now apply inverse_in_unit_interval.
Qed.

(** How far the first case can raise the factor. *)
Lemma case1_increment (avg3h : Q) :
  0 <= avg3h -> avg3h < 7.0 ->
  0 < (7.0 - avg3h) / 7.0 <= 1.
Proof.
  intros H0 H7. split.
  - apply Qlt_shift_div_l; lra.
  - apply Qle_shift_div_r; lra.
Qed.

(** The hard limits move a value towards any point inside them. *)
Lemma hardLimits_towards (r p : Q) :
  0.3 <= p <= 1.7 ->
  (r <= p -> r <= hardLimits r <= p) /\ (p <= r -> p <= hardLimits r <= r).
Proof.
  intros [Hl Hu]. unfold hardLimits.
  destruct (Js.ltb r 0.3) eqn:Hlow.
  - apply ltb_lt in Hlow.
    assert (H : Js.ltb 1.7 0.3 = false) by (apply ltb_ge; lra).
    rewrite H. split; intros; lra.
  - apply ltb_ge in Hlow. destruct (Js.ltb 1.7 r) eqn:Hhigh.
    + apply ltb_lt in Hhigh. split; intros; lra.
    + apply ltb_ge in Hhigh. split; intros; lra.
Qed.

(** X5.  The direction of a learning step, for a previous factor inside the
    hard limits and a window of non-negative samples: the first case never
    lowers the factor, the second never raises it, and the third and the
    default case leave it between the previous factor and 1, on the side of
    1 where it was. *)
Theorem learning_step_direction (cfg : Config) (w : list Q)
        (previous : Q) (e : Estimate) :
  0 <= basisLernrate cfg <= 1 ->
  Forall (fun x => 0 <= x) w ->
  0.3 <= previous <= 1.7 ->
  estimate cfg w previous = Some e ->
  match estCase e with
  | Case1_SystemSluggishUnstable => previous <= estReglerleistung e
  | Case2_SystemOverreacting => estReglerleistung e <= previous
  | Case3_SystemInOptimalRange | DefaultConvergence =>
      (previous <= 1 -> previous <= estReglerleistung e <= 1)
      /\ (1 <= previous -> 1 <= estReglerleistung e <= previous)
  end.
Proof.
  intros Hrate Hw Hp He. unfold estimate in He.
  destruct (windowStats w) as [st |] eqn:Hst; [| discriminate He].
  simpl in He.
  destruct (windowStats_ranges w st Hst Hw) as (Hm & Hs0 & Hs1).
  pose proof (hardLimits_towards) as HL.
  revert He. rewrite adjust_sourceThresholds.
  destruct (adjustWith_cases sourceThresholds cfg (mean st) (stability st)
                             previous)
    as [(Ha & ->) | [(_ & Hb & ->) | [(_ & _ & Hc & ->) | (_ & _ & _ & ->)]]];
    intros [= <-]; simpl.
  - apply condA_spec in Ha. simpl in Ha. destruct Ha as [Ha _].
    pose proof (case1_increment (mean st) Hm Ha) as [Hd0 Hd1].
    unfold adjustmentA. simpl.
    set (d := (7.0 - mean st) / 7.0) in *.
    apply (HL _ previous Hp). nra.
  - unfold adjustmentB. simpl. apply (HL _ previous Hp). lra.
  - unfold adjustmentC. simpl. split; intros Hside.
    + assert (H1 : 0.3 <= 1 <= 1.7) by lra.
      destruct (HL (previous * 0.99 + 0.01) previous Hp) as [_ Hup].
      destruct (HL (previous * 0.99 + 0.01) 1 H1) as [Hdown _].
      specialize (Hup ltac:(lra)). specialize (Hdown ltac:(lra)). lra.
    + assert (H1 : 0.3 <= 1 <= 1.7) by lra.
      destruct (HL (previous * 0.99 + 0.01) previous Hp) as [Hdown _].
      destruct (HL (previous * 0.99 + 0.01) 1 H1) as [_ Hup].
      specialize (Hup ltac:(lra)). specialize (Hdown ltac:(lra)). lra.
  - unfold adjustmentDefault.
    assert (Hk : 0 <= basisLernrate cfg * stability st <= 1) by nra.
    destruct (default_step_between _ _ previous Hk) as [Hlow Hhigh].
    cbv zeta in Hlow, Hhigh.
    set (r := previous + (1.0 - previous) * (basisLernrate cfg * stability st))
      in *.
    assert (H1 : 0.3 <= 1 <= 1.7) by lra.
    split; intros Hside.
    + specialize (Hlow Hside).
      destruct (HL r previous Hp) as [_ Hup].
      destruct (HL r 1 H1) as [Hdown _].
      specialize (Hup ltac:(lra)). specialize (Hdown ltac:(lra)). lra.
    + specialize (Hhigh Hside).
      destruct (HL r previous Hp) as [Hdown _].
      destruct (HL r 1 H1) as [_ Hup].
      specialize (Hup ltac:(lra)). specialize (Hdown ltac:(lra)). lra.
Qed.

Lemma learning_step_direction_witness :
  exists e,
    estimate CONFIG [18; 17; 19; 18; 18; 18] 1.2 = Some e
    /\ match estCase e with
       | Case1_SystemSluggishUnstable => 1.2 <= estReglerleistung e
       | Case2_SystemOverreacting => estReglerleistung e <= 1.2
       | Case3_SystemInOptimalRange | DefaultConvergence =>
           (1.2 <= 1 -> 1.2 <= estReglerleistung e <= 1)
           /\ (1 <= 1.2 -> 1 <= estReglerleistung e <= 1.2)
       end.
Proof.
  eexists. split; [vm_compute; reflexivity |].
  apply (learning_step_direction CONFIG [18; 17; 19; 18; 18; 18] 1.2).
  - split; qdecide.
  - repeat constructor; qdecide.
  - split; qdecide.
  - vm_compute. reflexivity.
Defined.

(** X6.  With the learning rate 0.02 of the script, a previous factor
    inside the hard limits and a window of non-negative samples, one
    learning step changes the factor by at most 0.085. *)
Theorem learning_step_bounded (w : list Q) (previous : Q) (e : Estimate) :
  Forall (fun x => 0 <= x) w ->
  0.3 <= previous <= 1.7 ->
  estimate CONFIG w previous = Some e ->
  Qabs (estReglerleistung e - previous) <= 0.085.
Proof.
  intros Hw Hp He. unfold estimate in He.
  destruct (windowStats w) as [st |] eqn:Hst; [| discriminate He].
  simpl in He.
  destruct (windowStats_ranges w st Hst Hw) as (Hm & Hs0 & Hs1).
  assert (Hclamp : forall r, Qabs (r - previous) <= 0.085 ->
                             Qabs (hardLimits r - previous) <= 0.085).
  { intros r Hr. apply Qabs_Qle_condition in Hr.
    apply Qabs_Qle_condition.
    destruct (hardLimits_towards r previous Hp) as [Ha Hb].
    destruct (Qlt_le_dec r previous) as [Hlt | Hge].
    - specialize (Ha ltac:(lra)). lra.
    - specialize (Hb Hge). lra. }
  revert He. rewrite adjust_sourceThresholds.
  destruct (adjustWith_cases sourceThresholds CONFIG (mean st) (stability st)
                             previous)
    as [(Ha & ->) | [(_ & Hb & ->) | [(_ & _ & Hc & ->) | (_ & _ & _ & ->)]]];
    intros [= <-]; simpl; apply Hclamp, Qabs_Qle_condition.
  - apply condA_spec in Ha. simpl in Ha. destruct Ha as [Ha _].
    pose proof (case1_increment (mean st) Hm Ha) as [Hd0 Hd1].
    unfold adjustmentA. simpl.
    set (d := (7.0 - mean st) / 7.0) in *. lra.
  - unfold adjustmentB. simpl. lra.
  - unfold adjustmentC. simpl. lra.
  - unfold adjustmentDefault. simpl. nra.
Qed.

Lemma learning_step_bounded_witness :
  exists e,
    estimate CONFIG [18; 17; 19; 18; 18; 18] 1.7 = Some e
    /\ Qabs (estReglerleistung e - 1.7) <= 0.085.
Proof.
  eexists. split; [vm_compute; reflexivity |].
  apply (learning_step_bounded [18; 17; 19; 18; 18; 18] 1.7).
  - repeat constructor; qdecide.
  - split; qdecide.
  - vm_compute. reflexivity.
Defined.

End LearningStep.

(** ** Initialization of the learning script *)

Section LearningInitFacts.
Import Learning LearningInit.

Lemma existsState_true (store : gmap string Js.value) (id : string) :
  existsState store id = true <-> is_Some (store !! id).
Proof.
  unfold existsState. destruct (store !! id) as [v |].
  - split; [eauto | reflexivity].
  - split; [discriminate | intros [v Hv]; discriminate].
Qed.

(** Creating a state only adds to the store. *)
Lemma createStates_preserves (auto : bool) (cfg : Config)
      (store : gmap string Js.value) (id : string) (v : Js.value) :
  store !! id = Some v -> createStates auto cfg store !! id = Some v.
Proof.
  intros Hid. unfold createStates, createState, existsState.
  destruct auto; simpl; [| exact Hid].
  set (store1 := if negb match store !! reglerleistungId cfg with
                         | Some _ => true
                         | None => false
                         end
                 then <[reglerleistungId cfg := Js.Num 1.0]> store
                 else store).
  assert (H1 : store1 !! id = Some v).
  { unfold store1. destruct (store !! reglerleistungId cfg) eqn:E; simpl.
    - exact Hid.
    - rewrite lookup_insert_ne; [exact Hid | congruence]. }
  destruct (store1 !! systemStabilitaetId cfg) eqn:E; simpl.
  - exact H1.
  - rewrite lookup_insert_ne; [exact H1 | congruence].
Qed.

(** X7.  [createStates] never overwrites: every datapoint that exists keeps
    its value.  With the switch on, both output datapoints exist afterwards
    and a second call changes nothing; with the switch off nothing is
    created. *)
Theorem createStates_only_adds (auto : bool) (cfg : Config)
        (store : gmap string Js.value) :
  (forall id v, store !! id = Some v ->
                createStates auto cfg store !! id = Some v)
  /\ (auto = true ->
      is_Some (createStates auto cfg store !! reglerleistungId cfg)
      /\ is_Some (createStates auto cfg store !! systemStabilitaetId cfg))
  /\ createStates auto cfg (createStates auto cfg store)
     = createStates auto cfg store
  /\ (auto = false -> createStates auto cfg store = store).
Proof.
  split; [intros id v; apply createStates_preserves |].
  assert (Hboth : auto = true ->
            is_Some (createStates auto cfg store !! reglerleistungId cfg)
            /\ is_Some (createStates auto cfg store !! systemStabilitaetId cfg)).
  { intros ->. unfold createStates, createState, existsState. simpl.
    destruct (store !! reglerleistungId cfg) as [r |] eqn:Er; simpl.
    - destruct (store !! systemStabilitaetId cfg) as [s |] eqn:Es; simpl.
      + rewrite Er, Es. eauto.
      + rewrite lookup_insert_eq.
        destruct (decide (systemStabilitaetId cfg = reglerleistungId cfg))
          as [E | E].
        * rewrite E in Es. congruence.
        * rewrite lookup_insert_ne, Er by congruence. eauto.
    - destruct (decide (reglerleistungId cfg = systemStabilitaetId cfg))
        as [E | E].
      + rewrite <- E, lookup_insert_eq. simpl. rewrite lookup_insert_eq. eauto.
      + rewrite lookup_insert_ne by congruence.
        destruct (store !! systemStabilitaetId cfg) as [s |] eqn:Es; simpl.
        * rewrite lookup_insert_eq, lookup_insert_ne, Es by congruence. eauto.
        * rewrite lookup_insert_eq, lookup_insert_ne, lookup_insert_eq
            by congruence. eauto. }
  split; [exact Hboth |]. split.
  - destruct auto; [| reflexivity].
    destruct (Hboth eq_refl) as [[r Hr] [s Hs]].
    set (created := createStates true cfg store) in *.
    unfold createStates at 1. unfold existsState. simpl.
    rewrite Hr. simpl. now rewrite Hs.
  - now intros ->.
Qed.

Lemma createStates_only_adds_witness :
  let store : gmap string Js.value :=
    {[ reglerleistungId CONFIG := Js.Num 1.14 ]} in
  createStates true CONFIG store !! reglerleistungId CONFIG
  = Some (Js.Num 1.14)
  /\ is_Some (createStates true CONFIG store !! systemStabilitaetId CONFIG)
  /\ createStates false CONFIG store = store.
Proof.
  intros store.
  destruct (createStates_only_adds true CONFIG store) as (H1 & H2 & _ & _).
  destruct (createStates_only_adds false CONFIG store) as (_ & _ & _ & H4).
  split; [apply H1; reflexivity |].
  split; [now apply H2 | now apply H4].
Defined.

(** X8.  Initialization does not change the factor a learning cycle starts
    from: a missing performance-factor datapoint is created with 1.0, the
    value [main] takes for a missing datapoint. *)
Theorem createStates_keeps_starting_factor (auto : bool) (cfg : Config)
        (store : gmap string Js.value) :
  currentReglerleistung cfg (createStates auto cfg store)
  = currentReglerleistung cfg store.
Proof.
  unfold currentReglerleistung, getState.
  destruct (store !! reglerleistungId cfg) as [v |] eqn:E.
  - now rewrite (createStates_preserves auto cfg store _ v E).
  - unfold createStates, createState, existsState.
    destruct auto; simpl; [| now rewrite E].
    rewrite E. simpl.
    destruct (decide (reglerleistungId cfg = systemStabilitaetId cfg))
      as [Eq | Ne].
    + rewrite <- Eq, lookup_insert_eq. simpl. now rewrite lookup_insert_eq.
    + rewrite lookup_insert_ne by congruence.
      destruct (store !! systemStabilitaetId cfg); simpl.
      * now rewrite lookup_insert_eq.
      * rewrite lookup_insert_ne, lookup_insert_eq by congruence. reflexivity.
Qed.

End LearningInitFacts.

(** ** The weather analysis *)

Section WeatherFacts.
Import Weather.

Lemma Qfloor_half (m : Z) : Qfloor (inject_Z m + (1 # 2)) = m.
Proof.
  pose proof (Qfloor_le (inject_Z m + (1 # 2))) as Hle.
  pose proof (Qlt_floor (inject_Z m + (1 # 2))) as Hlt.
  assert (H1 : (m <= Qfloor (inject_Z m + (1 # 2)))%Z).
  { rewrite <- (Qfloor_Z m) at 1. apply Qfloor_resp_le. lra. }
  assert (H2 : (Qfloor (inject_Z m + (1 # 2)) < m + 1)%Z).
  { rewrite Zlt_Qlt. rewrite inject_Z_plus. change (inject_Z 1) with 1. lra. }
  lia.
Qed.

Lemma scale_pos (d : nat) : 0 < inject_Z (10 ^ Z.of_nat d).
Proof.
  change 0 with (inject_Z 0). rewrite <- Zlt_Qlt.
  apply Z.pow_pos_nonneg; lia.
Qed.

(** Rounding to [d] decimals does not cross an integer. *)
Lemma toFixed_lower (d : nat) (x : Q) (a : Z) :
  0 <= x -> inject_Z a <= x -> inject_Z a <= Js.toFixed d x.
Proof.
  intros H0 Ha. unfold Js.toFixed, Js.roundHalfUp.
  assert (Hneg : Js.ltb x 0 = false) by (apply ltb_ge; lra).
  rewrite Hneg, Qred_correct.
  pose proof (scale_pos d) as Hs. set (s := (10 ^ Z.of_nat d)%Z) in *.
  apply Qle_shift_div_l; [exact Hs |].
  rewrite <- inject_Z_mult, <- Zle_Qle.
  rewrite <- (Qfloor_Z (a * s)). apply Qfloor_resp_le.
  rewrite inject_Z_mult. nra.
Qed.

Lemma toFixed_upper (d : nat) (x : Q) (b : Z) :
  0 <= x -> x <= inject_Z b -> Js.toFixed d x <= inject_Z b.
Proof.
  intros H0 Hb. unfold Js.toFixed, Js.roundHalfUp.
  assert (Hneg : Js.ltb x 0 = false) by (apply ltb_ge; lra).
  rewrite Hneg, Qred_correct.
  pose proof (scale_pos d) as Hs. set (s := (10 ^ Z.of_nat d)%Z) in *.
  apply Qle_shift_div_r; [exact Hs |].
  rewrite <- inject_Z_mult, <- Zle_Qle.
  rewrite <- (Qfloor_half (b * s)). apply Qfloor_resp_le.
  rewrite inject_Z_mult. nra.
Qed.

Lemma max_spec (a b : Q) : a <= max a b /\ b <= max a b.
Proof.
  unfold max. destruct (Js.ltb a b) eqn:E.
  - apply ltb_lt in E. lra.
  - apply ltb_ge in E. lra.
Qed.

Lemma min_spec (a b : Q) :
  min a b <= a /\ min a b <= b /\ (min a b = a \/ min a b = b).
Proof.
  unfold min. destruct (Js.ltb b a) eqn:E.
  - apply ltb_lt in E. repeat split; try lra. now right.
  - apply ltb_ge in E. repeat split; try lra. now left.
Qed.

(** X9.  Whatever the weather datapoints hold (missing, negative or huge
    values included), the solar support factor written by the analysis lies
    in [0, 1]; the wind factor is at least 1 whenever the wind speed is not
    negative, and it is exactly 1 without wind data. *)
Theorem weather_factor_ranges (data : Data) :
  0 <= heizunterstuetzungSolar (analyseCurrentData data) <= 1
  /\ (0 <= Js.toNumber (windspeed data) ->
      1 <= waermeverlustWind (analyseCurrentData data))
  /\ (windspeed data = Js.Null ->
      waermeverlustWind (analyseCurrentData data) = 1).
Proof.
  unfold analyseCurrentData.
  cbn [heizunterstuetzungSolar waermeverlustWind].
  set (raw := Js.orElse (solarradiation data) 0 / 800).
  destruct (max_spec 0 raw) as [Hm0 _].
  destruct (min_spec 1 (max 0 raw)) as (Hn1 & Hn2 & Hn3).
  assert (Hsol : 0 <= min 1 (max 0 raw) <= 1).
  { split; [| exact Hn1]. destruct Hn3 as [-> | ->]; lra. }
  split; [| split].
  - split.
    + apply (toFixed_lower 3 _ 0); [apply Hsol | apply Hsol].
    + apply (toFixed_upper 3 _ 1); [apply Hsol | apply Hsol].
  - intros Hw.
    assert (Hor : 0 <= Js.orElse (windspeed data) 0).
    { unfold Js.orElse. destruct (Js.truthy (windspeed data)); lra. }
    assert (Hdiv : 0 <= Js.orElse (windspeed data) 0 / 35).
    { apply Qle_shift_div_l; lra. }
    clear - Hdiv. set (w := Js.orElse (windspeed data) 0 / 35) in *.
    apply (toFixed_lower 3 _ 1); [lra |]. change (inject_Z 1) with 1. lra.
  - intros ->. reflexivity.
Qed.

Lemma weather_factor_ranges_witness :
  let data := {| solarradiation := Js.Num 1200; windspeed := Js.Num 17.5;
                 temp := Js.Null; feelslike := Js.Null; humidity := Js.Null;
                 dailyrain := Js.Num 0; winddir := Js.Null |} in
  0 <= heizunterstuetzungSolar (analyseCurrentData data) <= 1
  /\ 1 <= waermeverlustWind (analyseCurrentData data)
  /\ waermeverlustWind
       (analyseCurrentData
          {| solarradiation := Js.Num 1200; windspeed := Js.Null;
             temp := Js.Null; feelslike := Js.Null; humidity := Js.Null;
             dailyrain := Js.Num 0; winddir := Js.Null |}) = 1.
Proof.
  intros data.
  destruct (weather_factor_ranges data) as (H1 & H2 & _).
  split; [exact H1 |]. split; [apply H2; qdecide |].
  now apply (weather_factor_ranges
               {| solarradiation := Js.Num 1200; windspeed := Js.Null;
                  temp := Js.Null; feelslike := Js.Null; humidity := Js.Null;
                  dailyrain := Js.Num 0; winddir := Js.Null |}).
Defined.

(** X10.  The current condition is "Undetermined" exactly when the solar
    radiation, the wind speed or the daily rain is missing. *)
Theorem condition_undetermined_iff (data : Data) :
  aktuellerZustand (analyseCurrentData data) = "Undetermined"%string
  <-> solarradiation data = Js.Null \/ windspeed data = Js.Null
      \/ dailyrain data = Js.Null.
Proof.
  unfold analyseCurrentData. simpl.
  destruct (solarradiation data) as [| bs | qs] eqn:Es; simpl;
    [split; [now left | reflexivity] | |];
    (destruct (windspeed data) as [| bw | qw] eqn:Ew; simpl;
     [split; [now (right; left) | reflexivity] | |]);
    (destruct (dailyrain data) as [| br | qr] eqn:Er; simpl;
     [split; [now (right; right) | reflexivity] | |]);
    (split; [| intros [H | [H | H]]; discriminate H]);
    repeat match goal with
           | |- context [if ?c then _ else _] => destruct c
           end; simpl; discriminate.
Qed.

End WeatherFacts.

(** ** Histories and trends of the weather analysis *)

Section WeatherTrends.
Import Weather.

Lemma fold_getHistory (adapter : string -> nat -> Learning.Reply)
      (hours : nat) (idList : list string)
      (acc : gmap string (list Learning.Item)) (id : string) :
  (id ∈ idList ->
   fold_left (fun history i => <[i := historyOf (adapter i hours)]> history)
             idList acc !! id = Some (historyOf (adapter id hours)))
  /\ (id ∉ idList ->
      fold_left (fun history i => <[i := historyOf (adapter i hours)]> history)
                idList acc !! id = acc !! id).
Proof.
  revert acc. induction idList as [| i idList IH]; intros acc; simpl.
  - split; [intros H; inversion H | reflexivity].
  - destruct (IH (<[i := historyOf (adapter i hours)]> acc)) as [IHin IHout].
    split.
    + intros [-> | Hin]%elem_of_cons.
      * destruct (decide (i ∈ idList)) as [Hi | Hi]; [now apply IHin |].
        rewrite (IHout Hi). apply lookup_insert_eq.
      * now apply IHin.
    + intros [Hne Hout]%not_elem_of_cons.
      rewrite (IHout Hout). now apply lookup_insert_ne.
Qed.

Lemma historyOf_not_null (reply : Learning.Reply) :
  Forall (fun item => Learning.val item <> None) (historyOf reply).
Proof.
  destruct reply as [| error [result |]]; simpl; try constructor.
  induction result as [| item result IH]; simpl; [constructor |].
  destruct (Learning.val item) eqn:E; [| exact IH].
  constructor; [congruence | exact IH].
Qed.

(** X11.  [getHistoryData] has an entry for every requested id and for no
    other: the samples of the reply without the [null] ones, in their order,
    and the empty series when the query is rejected or the reply carries no
    result. *)
Theorem getHistoryData_entries (adapter : string -> nat -> Learning.Reply)
        (idList : list string) (hours : nat) (id : string) :
  (id ∈ idList ->
   getHistoryData adapter idList hours !! id
   = Some (historyOf (adapter id hours))
   /\ Forall (fun item => Learning.val item <> None)
             (series (getHistoryData adapter idList hours) id)
   /\ ((adapter id hours = Learning.Rejected
        \/ exists error, adapter id hours = Learning.Answer error None) ->
       series (getHistoryData adapter idList hours) id = []))
  /\ (id ∉ idList -> getHistoryData adapter idList hours !! id = None).
Proof.
  unfold getHistoryData.
  destruct (fold_getHistory adapter hours idList ∅ id) as [Hin Hout].
  split.
  - intros Hid. specialize (Hin Hid). unfold series. rewrite Hin.
    split; [reflexivity |]. split; [apply historyOf_not_null |].
    intros [-> | [error ->]]; reflexivity.
  - intros Hid. now rewrite (Hout Hid).
Qed.

Lemma getHistoryData_entries_witness :
  let adapter (id : string) (hours : nat) :=
    if String.eqb id (idTemp weatherIds)
    then Learning.Answer None
           (Some [ {| Learning.ts := 0; Learning.val := Some 4 |};
                   {| Learning.ts := 1; Learning.val := None |} ])
    else Learning.Rejected in
  getHistoryData adapter (values weatherIds) 48 !! idTemp weatherIds
  = Some [ {| Learning.ts := 0; Learning.val := Some 4 |} ]
  /\ getHistoryData adapter (values weatherIds) 48 !! "other"%string = None.
Proof.
  intros adapter.
  destruct (getHistoryData_entries adapter (values weatherIds) 48
                                   (idTemp weatherIds)) as [H1 _].
  destruct (getHistoryData_entries adapter (values weatherIds) 48
                                   "other"%string) as [_ H2].
  split.
  - apply H1. unfold values. simpl.
    rewrite !elem_of_cons. right. right. now left.
  - apply H2. unfold values. simpl.
    rewrite !not_elem_of_cons. repeat split; try discriminate.
    apply not_elem_of_nil.
Defined.


End WeatherTrends.

(** ** The weekly trend and the writes of the analysis *)

Section WeatherRun.
Import Weather.

(** The trend on a history that rises by 0.05 per sample over 120 samples. *)
Example trend168h_warming :
  let sample n :=
    {| Learning.ts := Z.of_nat n;
       Learning.val := Some (inject_Z (Z.of_nat n) / 20) |} in
  analyse168hData weatherIds {[ idTemp weatherIds := map sample (seq 0 120) ]}
  = "Significant warming trend"%string.
Proof. vm_compute. reflexivity. Qed.

Lemma series_getHistoryData (adapter : string -> nat -> Learning.Reply)
      (idList : list string) (hours : nat) (id : string) :
  id ∈ idList ->
  series (getHistoryData adapter idList hours) id
  = historyOf (adapter id hours).
Proof.
  intros Hid. unfold series, getHistoryData.
  destruct (fold_getHistory adapter hours idList ∅ id) as [Hin _].
  now rewrite (Hin Hid).
Qed.

(** X14.  [runAnalysis] always performs the same five writes, in this
    order: each result of the three layers goes to the output datapoint of
    its own key.  Queries that are rejected or carry no result do not stop
    it: when no history is available, both trends are written as
    "No data" next to the figures of the current data. *)
Theorem runAnalysis_writes (store : gmap string Js.value)
        (adapter : string -> nat -> Learning.Reply) :
  let layer1 := analyseCurrentData (getCurrentData weatherIds store) in
  let trendKurz :=
    analyse48hData weatherIds (getHistoryData adapter (values weatherIds) 48) in
  let trendLang :=
    analyse168hData weatherIds
                    (getHistoryData adapter (values weatherIds) 168) in
  runAnalysis weatherIds outputIds store adapter
  = [("0_userdata.0.Heizung.Analyse.Wetter_AktuellerZustand"%string,
      Text (aktuellerZustand layer1));
     ("0_userdata.0.Heizung.Analyse.Wetter_Heizunterstuetzung_Solar"%string,
      Number (heizunterstuetzungSolar layer1));
     ("0_userdata.0.Heizung.Analyse.Wetter_Waermeverlust_Wind"%string,
      Number (waermeverlustWind layer1));
     ("0_userdata.0.Heizung.Analyse.Wetter_Prognose_Trend_Kurz"%string,
      Text trendKurz);
     ("0_userdata.0.Heizung.Analyse.Wetter_Prognose_Trend_Lang"%string,
      Text trendLang)]
  /\ ((forall id hours, historyOf (adapter id hours) = []) ->
      trendKurz = "No data"%string /\ trendLang = "No data"%string).
Proof.
  intros layer1 trendKurz trendLang. split; [reflexivity |].
  intros Hnone.
  assert (Htemp : idTemp weatherIds ∈ values weatherIds).
  { unfold values. simpl. rewrite !elem_of_cons. right. right. now left. }
  assert (Hsolar : idSolarradiation weatherIds ∈ values weatherIds).
  { unfold values. simpl. rewrite !elem_of_cons. now left. }
  unfold trendKurz, trendLang, analyse48hData, analyse168hData.
  rewrite !series_getHistoryData, !Hnone by assumption.
  split; reflexivity.
Qed.

Lemma runAnalysis_writes_witness :
  analyse48hData weatherIds
                 (getHistoryData (fun _ _ => Learning.Rejected)
                                 (values weatherIds) 48)
  = "No data"%string
  /\ analyse168hData weatherIds
                     (getHistoryData (fun _ _ => Learning.Rejected)
                                     (values weatherIds) 168)
     = "No data"%string.
Proof.
  destruct (runAnalysis_writes ∅ (fun _ _ => Learning.Rejected)) as [_ H].
  apply H. reflexivity.
Defined.

End WeatherRun.

(** ** The room script: the setpoint that is sent *)

Section RoomSetpoint.
Import RoomMain.

Variable zuNahAmTaupunkt : Q -> Q -> Q -> Q -> bool.

Lemma round_on_grid (x : Q) (a b : Z) :
  inject_Z a <= x <= inject_Z b -> (a <= round x <= b)%Z.
Proof.
  intros [Ha Hb]. unfold round, Js.roundHalfUp. split.
  - rewrite <- (Qfloor_Z a). apply Qfloor_resp_le. lra.
  - rewrite <- (Qfloor_half b). apply Qfloor_resp_le. lra.
Qed.

Lemma round_error (x : Q) :
  x - (1 # 2) < inject_Z (round x) <= x + (1 # 2).
Proof.
  unfold round, Js.roundHalfUp.
  pose proof (Qfloor_le (x + (1 # 2))) as Hle.
  pose proof (Qlt_floor (x + (1 # 2))) as Hlt.
  rewrite inject_Z_plus in Hlt. change (inject_Z 1) with 1 in Hlt. lra.
Qed.

(** Outside special cases the value that is rounded lies inside the
    limits. *)
Lemma limited_range (cfg : Config) (t : Q) :
  minSollTemp cfg <= maxSollTemp cfg ->
  let t1 := if Js.ltb (maxSollTemp cfg) t then maxSollTemp cfg else t in
  minSollTemp cfg
  <= (if Js.ltb t1 (minSollTemp cfg) then minSollTemp cfg else t1)
  <= maxSollTemp cfg.
Proof.
  intros Hmm t1. unfold t1.
  destruct (Js.ltb (maxSollTemp cfg) t) eqn:E1.
  - apply ltb_lt in E1.
    destruct (Js.ltb (maxSollTemp cfg) (minSollTemp cfg)) eqn:E2.
    + apply ltb_lt in E2. lra.
    + lra.
  - apply ltb_ge in E1.
    destruct (Js.ltb t (minSollTemp cfg)) eqn:E2.
    + lra.
    + apply ltb_ge in E2. lra.
Qed.

(** X15.  Outside the special cases (window open, heating period off), and
    with [minSollTemp <= maxSollTemp], the setpoint that [main] sends lies
    within a quarter degree of the limits, whatever the sensors and modules
    add; when both limits are multiples of 0.5, as in the script's
    configuration, it lies inside the limits. *)
Theorem setpoint_within_limits (cfg : Config) (store : gmap string Js.value) :
  snd (Room.baseTemperature (room cfg) (Room.collect (room cfg) store))
  = false ->
  minSollTemp cfg <= maxSollTemp cfg ->
  (minSollTemp cfg - (1 # 4)
   <= neueSollTemp zuNahAmTaupunkt cfg store
   <= maxSollTemp cfg + (1 # 4))
  /\ (forall a b : Z,
        minSollTemp cfg == inject_Z a / 2 ->
        maxSollTemp cfg == inject_Z b / 2 ->
        minSollTemp cfg
        <= neueSollTemp zuNahAmTaupunkt cfg store
        <= maxSollTemp cfg).
Proof.
  intros Hsonder Hmm. unfold neueSollTemp.
  destruct (Room.baseTemperature (room cfg) (Room.collect (room cfg) store))
    as [base sonder].
  simpl in Hsonder. subst sonder. simpl negb. cbv iota.
  set (t := dynamicAdjustments zuNahAmTaupunkt cfg _ _ base).
  unfold finalize. simpl negb. cbv iota.
  pose proof (limited_range cfg t Hmm) as Hlim. cbv zeta in Hlim.
  set (limited := if Js.ltb _ (minSollTemp cfg) then _ else _) in *.
  rewrite Qred_correct. split.
  - pose proof (round_error (limited * 2)) as [He1 He2]. split.
    + apply Qle_shift_div_l; lra.
    + apply Qle_shift_div_r; lra.
  - intros a b Ha Hb.
    assert (Ha' : inject_Z a == minSollTemp cfg * 2) by (rewrite Ha; field).
    assert (Hb' : inject_Z b == maxSollTemp cfg * 2) by (rewrite Hb; field).
    assert (Hgrid : inject_Z a <= limited * 2 <= inject_Z b) by lra.
    destruct (round_on_grid _ a b Hgrid) as [Hr1 Hr2].
    rewrite Zle_Qle in Hr1, Hr2. rewrite Qred_correct. split.
    + apply Qle_shift_div_l; lra.
    + apply Qle_shift_div_r; lra.
Qed.

(** X16.  In the special cases no sensor, module or limit takes part: with
    the heating period off (or its state missing) the setpoint is the frost
    protection temperature, and with the heating period on and a window
    open it is the window-open temperature, each rounded to steps of 0.5;
    with the script's configuration these are 4.5 and 12. *)
Theorem special_cases_fix_setpoint (cfg : Config)
        (store : gmap string Js.value) :
  let states := Room.collect (room cfg) store in
  (Js.truthy (Room.heizPeriode states) = false ->
   neueSollTemp zuNahAmTaupunkt cfg store
   = Qred (inject_Z (round (Room.tempHeizperiodeAus (room cfg) * 2)) / 2)
   /\ (cfg = CONFIG -> neueSollTemp zuNahAmTaupunkt cfg store == 4.5))
  /\ (Js.truthy (Room.heizPeriode states) = true ->
      Room.fensterIstOffen states = true ->
      neueSollTemp zuNahAmTaupunkt cfg store
      = Qred (inject_Z (round (Room.tempFensterOffen (room cfg) * 2)) / 2)
      /\ (cfg = CONFIG -> neueSollTemp zuNahAmTaupunkt cfg store == 12)).
Proof.
  intros states. split.
  - intros Hheat.
    assert (E : neueSollTemp zuNahAmTaupunkt cfg store
                = Qred (inject_Z (round (Room.tempHeizperiodeAus (room cfg) * 2))
                        / 2)).
    { unfold neueSollTemp, Room.baseTemperature. fold states.
      rewrite Hheat. reflexivity. }
    split; [exact E |]. intros ->. rewrite E. qdecide.
  - intros Hheat Hwin.
    assert (E : neueSollTemp zuNahAmTaupunkt cfg store
                = Qred (inject_Z (round (Room.tempFensterOffen (room cfg) * 2))
                        / 2)).
    { unfold neueSollTemp, Room.baseTemperature. fold states.
      rewrite Hheat, Hwin. reflexivity. }
    split; [exact E |]. intros ->. rewrite E. qdecide.
Qed.

End RoomSetpoint.

Lemma setpoint_within_limits_witness :
  let store : gmap string Js.value :=
    {[ Room.idHeizPeriode Room.CONFIG := Js.Bool true;
       Room.idAnwesenheit Room.CONFIG := Js.Bool true;
       Room.idTuerSensor Room.CONFIG := Js.Num 0;
       Room.idAussenTempSensor Room.CONFIG := Js.Num (-20) ]} in
  RoomMain.minSollTemp RoomMain.CONFIG
  <= RoomMain.neueSollTemp (fun _ _ _ _ => true) RoomMain.CONFIG store
  <= RoomMain.maxSollTemp RoomMain.CONFIG.
Proof.
  intros store.
  destruct (setpoint_within_limits (fun _ _ _ _ => true) RoomMain.CONFIG store)
    as [_ H]; [vm_compute; reflexivity | qdecide |].
  apply (H 32%Z 48%Z); qdecide.
Defined.

Lemma special_cases_fix_setpoint_witness :
  RoomMain.neueSollTemp (fun _ _ _ _ => true) RoomMain.CONFIG ∅ == 4.5
  /\ RoomMain.neueSollTemp
       (fun _ _ _ _ => true) RoomMain.CONFIG
       {[ Room.idHeizPeriode Room.CONFIG := Js.Bool true;
          Room.idTuerSensor Room.CONFIG := Js.Num 1;
          Room.idAussenTempSensor Room.CONFIG := Js.Num (-20) ]} == 12.
Proof.
  split.
  - destruct (special_cases_fix_setpoint
                (fun _ _ _ _ => true) RoomMain.CONFIG ∅) as [H _].
    destruct H as [_ H]; [vm_compute; reflexivity |]. now apply H.
  - destruct (special_cases_fix_setpoint
                (fun _ _ _ _ => true) RoomMain.CONFIG
                {[ Room.idHeizPeriode Room.CONFIG := Js.Bool true;
                   Room.idTuerSensor Room.CONFIG := Js.Num 1;
                   Room.idAussenTempSensor Room.CONFIG := Js.Num (-20) ]})
      as [_ H].
    destruct H as [_ H]; [vm_compute; reflexivity | vm_compute; reflexivity |].
    now apply H.
Defined.

(** ** The room script: thermostats and the rate limiter *)

Section Thermostats.
Import RoomMain.

Lemma replaceFirst_absent (pattern replacement s : string) :
  Weather.includes s pattern = false ->
  replaceFirst pattern replacement s = s.
Proof.
  induction s as [| c s IH].
  - destruct pattern; [discriminate | reflexivity].
  - cbn [Weather.includes replaceFirst].
    destruct (String.prefix pattern (String c s)); [discriminate |].
    cbn [orb]. intros H. now rewrite (IH H).
Qed.

(** The control-mode datapoint of the thermostat of the configuration. *)
Example controlModeId_CONFIG :
  map controlModeId (thermostate CONFIG)
  = ["hm-rpc.2.00000000000000.1.CONTROL_MODE"%string].
Proof. reflexivity. Qed.

(** X17.  One thermostat in the loop of [main]: within the hysteresis
    nothing is written; beyond it the thermostat receives the setpoint and
    its control-mode datapoint the value 1, and no other datapoint changes.
    Right after such a write (hysteresis not negative, setpoint not 0) the
    same setpoint is no change any more. *)
Theorem sendSetpoint_hysteresis (cfg : Config) (neueSollTemp : Q)
        (store : gmap string Js.value) (thermostatId : string) :
  let aktuell := Js.orElse (Room.fetch store thermostatId) 4.5 in
  let store' := sendSetpoint cfg neueSollTemp store thermostatId in
  (Qabs (neueSollTemp - aktuell) <= hysterese cfg -> store' = store)
  /\ (hysterese cfg < Qabs (neueSollTemp - aktuell) ->
      controlModeId thermostatId <> thermostatId ->
      store' !! thermostatId = Some (Js.Num neueSollTemp)
      /\ store' !! controlModeId thermostatId = Some (Js.Num 1)
      /\ (forall id, id <> thermostatId -> id <> controlModeId thermostatId ->
                     store' !! id = store !! id)
      /\ (0 <= hysterese cfg -> ~ neueSollTemp == 0 ->
          sollwertGeaendert cfg neueSollTemp store' thermostatId = false)).
Proof.
  intros aktuell store'. unfold store', sendSetpoint, sollwertGeaendert.
  fold aktuell. split.
  - intros Hin. apply ltb_ge in Hin. now rewrite Hin.
  - intros Hout Hcm. apply ltb_lt in Hout. rewrite Hout.
    split; [| split; [| split]].
    + rewrite lookup_insert_ne by exact Hcm. apply lookup_insert_eq.
    + apply lookup_insert_eq.
    + intros id H1 H2. rewrite !lookup_insert_ne by congruence. reflexivity.
    + intros Hh Hnz. apply ltb_ge.
      unfold Room.fetch. rewrite lookup_insert_ne by exact Hcm.
      rewrite lookup_insert_eq. unfold Js.orElse. simpl.
      destruct (Qeq_bool neueSollTemp 0) eqn:E.
      * apply Qeq_bool_iff in E. contradiction.
      * simpl.
        assert (H0 : neueSollTemp - neueSollTemp == 0) by ring.
        rewrite (Qabs_wd _ _ H0). exact Hh.
Qed.

Lemma sendSetpoint_hysteresis_witness :
  let store : gmap string Js.value :=
    {[ "hm-rpc.2.00000000000000.1.SET_POINT_TEMPERATURE"%string := Js.Num 21 ]} in
  let id := "hm-rpc.2.00000000000000.1.SET_POINT_TEMPERATURE"%string in
  sendSetpoint CONFIG 21.5 store id = store
  /\ sendSetpoint CONFIG 23.5 store id !! id = Some (Js.Num 23.5)
  /\ sendSetpoint CONFIG 23.5 store id !! controlModeId id = Some (Js.Num 1)
  /\ sollwertGeaendert CONFIG 23.5 (sendSetpoint CONFIG 23.5 store id) id
     = false.
Proof.
  intros store id.
  destruct (sendSetpoint_hysteresis CONFIG 21.5 store id) as [H1 _].
  destruct (sendSetpoint_hysteresis CONFIG 23.5 store id) as [_ H2].
  split; [apply H1; vm_compute; discriminate |].
  destruct H2 as (Ha & Hb & _ & Hd);
    [vm_compute; reflexivity | vm_compute; discriminate |].
  split; [exact Ha |]. split; [exact Hb |].
  apply Hd; [vm_compute; discriminate | vm_compute; discriminate].
Defined.

(** X18.  The control-mode datapoint is found by replacing
    SET_POINT_TEMPERATURE in the thermostat id.  For an id in which that
    text does not occur both writes go to the same datapoint, and after a
    change it holds the mode value 1 instead of the setpoint. *)
Theorem setpoint_overwritten_without_marker (cfg : Config) (neueSollTemp : Q)
        (store : gmap string Js.value) (thermostatId : string) :
  Weather.includes thermostatId "SET_POINT_TEMPERATURE" = false ->
  sollwertGeaendert cfg neueSollTemp store thermostatId = true ->
  controlModeId thermostatId = thermostatId
  /\ sendSetpoint cfg neueSollTemp store thermostatId !! thermostatId
     = Some (Js.Num 1).
Proof.
  intros Habs Hchanged.
  assert (Hcm : controlModeId thermostatId = thermostatId)
    by now apply replaceFirst_absent.
  split; [exact Hcm |].
  unfold sendSetpoint. rewrite Hchanged, Hcm. apply lookup_insert_eq.
Qed.

Lemma setpoint_overwritten_without_marker_witness :
  controlModeId "hm-rpc.2.00000000000000.1.SETPOINT" =
  "hm-rpc.2.00000000000000.1.SETPOINT"%string
  /\ sendSetpoint CONFIG 21 ∅ "hm-rpc.2.00000000000000.1.SETPOINT"
     !! "hm-rpc.2.00000000000000.1.SETPOINT"%string
     = Some (Js.Num 1).
Proof.
  apply (setpoint_overwritten_without_marker
           CONFIG 21 ∅ "hm-rpc.2.00000000000000.1.SETPOINT");
    vm_compute; reflexivity.
Defined.

(** Every run of [main] happens at the time of one of the triggers, at
    least the cooldown after the time in [lastRunTimestamp]. *)
Lemma executed_after (last : Z) (triggers : list Z) :
  Forall (fun t => (last + COOLDOWN_MS <= t)%Z /\ In t triggers)
         (executed last triggers).
Proof.
  revert last. induction triggers as [| now rest IH]; intros last; simpl.
  - constructor.
  - unfold rateLimitedMain.
    destruct (now - last <? COOLDOWN_MS)%Z eqn:E.
    + apply Z.ltb_lt in E.
      eapply Forall_impl; [apply IH |]. simpl. intros t [H1 H2]. tauto.
    + apply Z.ltb_ge in E. constructor.
      * split; [lia | now left].
      * eapply Forall_impl; [apply (IH now) |]. simpl.
        intros t [H1 H2]. unfold COOLDOWN_MS in *. split; [lia | tauto].
Qed.

(** X19.  Whatever the times at which triggers arrive, [main] runs only at
    times of triggers, and any two runs (and the last run before them) are
    at least [COOLDOWN_MS] = 2000 ms apart. *)
Theorem executed_spaced (lastRunTimestamp : Z) (triggers : list Z) :
  StronglySorted (fun a b => (a + COOLDOWN_MS <= b)%Z)
                 (lastRunTimestamp :: executed lastRunTimestamp triggers)
  /\ Forall (fun t => In t triggers) (executed lastRunTimestamp triggers).
Proof.
  split.
  - revert lastRunTimestamp.
    induction triggers as [| now rest IH]; intros last.
    + simpl. repeat constructor.
    + simpl. unfold rateLimitedMain.
      destruct (now - last <? COOLDOWN_MS)%Z eqn:E; [apply IH |].
      apply Z.ltb_ge in E. constructor.
      * apply IH.
      * constructor; [lia |].
        eapply Forall_impl; [apply (executed_after now rest) |]. simpl.
        intros t [H _]. unfold COOLDOWN_MS in *. lia.
  - eapply Forall_impl; [apply executed_after |]. simpl. tauto.
Qed.

(** A burst of triggers, with a clock that steps back once. *)
Example executed_burst :
  executed 0 [1000000; 1000500; 1001999; 1002000; 1001000; 1004500]%Z
  = [1000000; 1002000; 1004500]%Z.
Proof. reflexivity. Qed.

End Thermostats.

(** ** The heating-period script *)

Section HeatingPeriodFacts.
Import HeatingPeriod.









(** The day of the witness, evaluated. *)
Example end_of_day_november :
  let st := createDataPoints {| avgTemp := None; sumCache := None;
                                counter := None; heatingPeriod := None;
                                lastReset := None |} in
  let now := {| getDate := 7; getMonth := 10; getFullYear := 2025 |} in
  fst (endOfDay now (onSensorUpdates [Js.Num 4; Js.Null; Js.Num 7.5] st))
  = {| avgTemp := Some (Js.Num (Qred 5.75));
       sumCache := Some (Js.Num 0);
       counter := Some (Js.Num 0);
       heatingPeriod := Some (Js.Bool true);
       lastReset := Some "07.11.2025"%string |}.
Proof. vm_compute. reflexivity. Qed.

(** X22.  The end-of-day decision, for a numeric sum [s] and counter [n]:
    with readings ([n > 0]) the heating period is switched on exactly when
    the average [s / n] is at most 18 and the month is October to May;
    without readings the average counts as 0, so the heating period is on
    in every month from October to May. *)
Theorem heating_period_decision (now : Date) (st : State) (s n : Q) :
  sumCache st = Some (Js.Num s) ->
  counter st = Some (Js.Num n) ->
  (0 < n ->
   (heatingPeriod (fst (endOfDay now st)) = Some (Js.Bool true)
    <-> s / n <= 18
        /\ (10 <= getMonth now + 1 \/ getMonth now + 1 <= 5)%nat)
   /\ (heatingPeriod (fst (endOfDay now st)) = Some (Js.Bool true)
       \/ heatingPeriod (fst (endOfDay now st)) = Some (Js.Bool false)))
  /\ (n <= 0 ->
      avgTemp (fst (endOfDay now st)) = Some (Js.Num 0)
      /\ heatingPeriod (fst (endOfDay now st))
         = Some (Js.Bool (isHeatingTimeframe now))).
Proof.
  intros Hs Hn. unfold endOfDay. rewrite Hs, Hn. simpl. split.
  - intros Hpos. apply ltb_lt in Hpos. rewrite Hpos.
    unfold isHeatingTimeframe, HEATING_LIMIT_TEMP.
    destruct (Js.leb (s / n) 18.0) eqn:E1.
    + apply leb_le in E1.
      destruct ((10 <=? getMonth now + 1)%nat) eqn:E2; simpl.
      * apply Nat.leb_le in E2. split; [| now left].
        split; [intros _; split; [lra | now left] | reflexivity].
      * apply Nat.leb_gt in E2.
        destruct ((getMonth now + 1 <=? 5)%nat) eqn:E3.
        -- apply Nat.leb_le in E3. split; [| now left].
           split; [intros _; split; [lra | now right] | reflexivity].
        -- apply Nat.leb_gt in E3. split; [| now right].
           split; [discriminate | intros [_ [H | H]]; lia].
    + apply leb_gt in E1. simpl. split; [| now right].
      split; [discriminate | intros [H _]; lra].
  - intros Hle. apply ltb_ge in Hle. rewrite Hle. split; [reflexivity |].
    reflexivity.
Qed.

Lemma heating_period_decision_witness :
  let now := {| getDate := 1; getMonth := 11; getFullYear := 2025 |} in
  let st := {| avgTemp := Some (Js.Num 3); sumCache := Some (Js.Num 0);
               counter := Some (Js.Num 0); heatingPeriod := None;
               lastReset := None |} in
  avgTemp (fst (endOfDay now st)) = Some (Js.Num 0)
  /\ heatingPeriod (fst (endOfDay now st))
     = Some (Js.Bool (isHeatingTimeframe now)).
Proof.
  intros now st.
  destruct (heating_period_decision now st 0 0) as [_ H];
    [reflexivity | reflexivity |].
  apply H. qdecide.
Defined.

(** X23.  Errors of the two handlers.  A sensor update or an end-of-day run
    that finds the sum or the counter datapoint missing throws before any
    write; after [createDataPoints] a sensor update never throws.  An
    end-of-day run whose sum datapoint holds no number throws after the
    daily average has been written: sum, counter, heating period and reset
    date keep their values. *)
Theorem handlers_on_bad_state (now : Date) (st : State) (currentTemp : Js.value) :
  (sumCache st = None \/ counter st = None ->
   endOfDay now st = (st, Threw)
   /\ (Js.isNumber currentTemp = true ->
       onSensorUpdate currentTemp st = (st, Threw)))
  /\ snd (onSensorUpdate currentTemp (createDataPoints st)) <> Threw
  /\ (forall sum count,
        sumCache st = Some sum -> counter st = Some count ->
        Js.isNumber sum = false ->
        snd (endOfDay now st) = Threw
        /\ sumCache (fst (endOfDay now st)) = sumCache st
        /\ counter (fst (endOfDay now st)) = counter st
        /\ heatingPeriod (fst (endOfDay now st)) = heatingPeriod st
        /\ lastReset (fst (endOfDay now st)) = lastReset st
        /\ is_Some (avgTemp (fst (endOfDay now st)))).
Proof.
  split; [| split].
  - intros Hmiss. unfold endOfDay, onSensorUpdate. split.
    + destruct Hmiss as [-> | Hc]; [reflexivity |].
      rewrite Hc. now destruct (sumCache st).
    + intros ->. simpl. destruct Hmiss as [-> | Hc]; [reflexivity |].
      rewrite Hc. now destruct (sumCache st).
  - unfold onSensorUpdate, createDataPoints, orCreate. simpl.
    destruct (negb (Js.isNumber currentTemp)); [discriminate |].
    destruct (sumCache st), (counter st); discriminate.
  - intros sum count Hs Hc Hnum. unfold endOfDay. rewrite Hs, Hc, Hnum.
    simpl. repeat split. eauto.
Qed.

Lemma handlers_on_bad_state_witness :
  let now := {| getDate := 1; getMonth := 0; getFullYear := 2026 |} in
  let st := {| avgTemp := None; sumCache := None; counter := Some (Js.Num 0);
               heatingPeriod := None; lastReset := None |} in
  endOfDay now st = (st, Threw)
  /\ onSensorUpdate (Js.Num 3) st = (st, Threw)
  /\ snd (endOfDay now {| avgTemp := None; sumCache := Some Js.Null;
                          counter := Some (Js.Num 2); heatingPeriod := None;
                          lastReset := None |}) = Threw.
Proof.
  intros now st.
  destruct (handlers_on_bad_state now st (Js.Num 3)) as [H _].
  destruct H as [H1 H2]; [now left |].
  split; [exact H1 |]. split; [now apply H2 |].
  destruct (handlers_on_bad_state
              now {| avgTemp := None; sumCache := Some Js.Null;
                     counter := Some (Js.Num 2); heatingPeriod := None;
                     lastReset := None |} Js.Null) as (_ & _ & H3).
  now destruct (H3 Js.Null (Js.Num 2) eq_refl eq_refl eq_refl).
Defined.

End HeatingPeriodFacts.

(** ** The heating-curve analysis *)

Section HeatingCurveFacts.
Import HeatingCurve.

Lemma roundHalfUp_error (x : Q) :
  x - (1 # 2) < inject_Z (Js.roundHalfUp x) <= x + (1 # 2).
Proof.
  unfold Js.roundHalfUp.
  pose proof (Qfloor_le (x + (1 # 2))) as Hle.
  pose proof (Qlt_floor (x + (1 # 2))) as Hlt.
  rewrite inject_Z_plus in Hlt. change (inject_Z 1) with 1 in Hlt. lra.
Qed.

(** Rounding to one decimal moves a number by at most 0.05. *)
Lemma toFixed1_error (x : Q) : Qabs (Js.toFixed 1 x - x) <= 1 # 20.
Proof.
  unfold Js.toFixed. change (inject_Z (10 ^ Z.of_nat 1)) with 10.
  apply Qabs_Qle_condition.
  destruct (Js.ltb x 0); rewrite Qred_correct.
  - pose proof (roundHalfUp_error (- x * 10)) as [H1 H2].
    set (r := inject_Z (Js.roundHalfUp (- x * 10))) in *.
    assert (E : - (r / 10) - x == - (r + x * 10) / 10) by field.
    rewrite E. split.
    + apply Qle_shift_div_l; lra.
    + apply Qle_shift_div_r; lra.
  - pose proof (roundHalfUp_error (x * 10)) as [H1 H2].
    set (r := inject_Z (Js.roundHalfUp (x * 10))) in *.
    assert (E : r / 10 - x == (r - x * 10) / 10) by field.
    rewrite E. split.
    + apply Qle_shift_div_l; lra.
    + apply Qle_shift_div_r; lra.
Qed.

Lemma activeValues_length (items : list Learning.Item) :
  length (activeValues (map Learning.val items))
  = length (List.filter (fun item => active (Learning.val item)) items).
Proof.
  induction items as [| item items IH]; simpl; [reflexivity |].
  destruct (Learning.val item) as [q |]; simpl; [| exact IH].
  destruct (Js.ltb 1.0 q); simpl; congruence.
Qed.

Lemma sliceLast_length {A : Type} (n : nat) (arr : list A) :
  (length (Js.sliceLast n arr) <= length arr)%nat
  /\ (0 < n -> length (Js.sliceLast n arr) <= n)%nat.
Proof.
  destruct n as [| n]; simpl.
  - split; [lia | lia].
  - rewrite length_skipn. split; lia.
Qed.

(** X24.  [analyseSystem] writes nothing when the heating-period state is
    missing or falsy, when one of the three boiler datapoints is missing,
    when the history query is rejected, carries an error or carries no or
    empty data, when fewer than 5 samples above 1.0 remain (always the case
    for an analysis window of 1 to 4 samples), or when the outdoor
    temperature lies strictly between the two thresholds. *)
Theorem analyseSystem_skips (cfg : Config) (store : gmap string Js.value)
        (reply : Learning.Reply) (jetzt : string) :
  (store !! svHeizperiodeId cfg = None
   \/ (exists v, store !! svHeizperiodeId cfg = Some v /\ Js.truthy v = false)
   \/ store !! aussenTempId cfg = None
   \/ store !! aktuelleHeizkurveId cfg = None
   \/ store !! adaptiveHeizkurveId cfg = None
   \/ reply = Learning.Rejected
   \/ (exists c msg result,
         reply = Learning.Answer (Some (String c msg)) result)
   \/ (exists error, reply = Learning.Answer error None)
   \/ (exists error, reply = Learning.Answer error (Some []))
   \/ (exists error items,
         reply = Learning.Answer error (Some items)
         /\ ((length (List.filter (fun item => active (Learning.val item))
                                  items) < 5)%nat
             \/ (0 < analyseHours cfg * 2 < 5)%nat))
   \/ (exists v, store !! aussenTempId cfg = Some v
                 /\ tempGrenzeSteilheit cfg < Js.toNumber v
                    < tempGrenzeNiveau cfg)) ->
  analyseSystem cfg store reply jetzt = [].
Proof.
  intros H. unfold analyseSystem.
  destruct (store !! svHeizperiodeId cfg) as [heiz |] eqn:Eh; [| reflexivity].
  destruct (Js.truthy heiz) eqn:Et; [| reflexivity]. simpl negb. cbv iota.
  destruct (store !! aussenTempId cfg) as [aussen |] eqn:Ea; [| reflexivity].
  destruct (store !! aktuelleHeizkurveId cfg) as [basis |] eqn:Eb;
    [| reflexivity].
  destruct (store !! adaptiveHeizkurveId cfg) as [adaption |] eqn:Ead;
    [| reflexivity].
  destruct H as [H | [(v & H & Hv) | [H | [H | [H | H]]]]];
    try discriminate H.
  { injection H as <-. congruence. }
  destruct H as [-> | [(c & msg & result & ->) | [(error & ->) | H]]];
    try reflexivity.
  { simpl. now destruct error as [[| ? ?] |]. }
  destruct H as [(error & ->) | [(error & items & -> & Hfew) | H]].
  { simpl. now destruct error as [[| ? ?] |]. }
  - assert (Hq : queryHistory (Learning.Answer error (Some items)) = None
                 \/ queryHistory (Learning.Answer error (Some items))
                    = Some (activeValues (map Learning.val items))).
    { simpl. destruct error as [[| ? ?] |]; destruct items; auto. }
    destruct Hq as [-> | ->]; [reflexivity |].
    set (h := activeValues (map Learning.val items)).
    destruct (sliceLast_length (analyseHours cfg * 2) h) as [Hl1 Hl2].
    assert (Hlt : (length (Js.sliceLast (analyseHours cfg * 2) h) <? 5)%nat
                  = true).
    { apply Nat.ltb_lt. destruct Hfew as [Hfew | Hfew].
      - assert (Hh : length h = length (List.filter
                                          (fun item => active (Learning.val item))
                                          items))
          by apply activeValues_length.
        lia.
      - specialize (Hl2 ltac:(lia)). lia. }
    now rewrite Hlt.
  - destruct H as (v & Hv & Hlow & Hhigh).
    injection Hv as <-.
    destruct (queryHistory reply) as [h |]; [| reflexivity].
    destruct (length _ <? 5)%nat; [reflexivity |].
    apply leb_gt in Hlow. rewrite Hlow.
    apply leb_gt in Hhigh. now rewrite Hhigh.
Qed.

Lemma analyseSystem_skips_witness :
  let store : gmap string Js.value :=
    {[ svHeizperiodeId CONFIG := Js.Bool true;
       aussenTempId CONFIG := Js.Num 2.5;
       aktuelleHeizkurveId CONFIG := Js.Num 1.2;
       adaptiveHeizkurveId CONFIG := Js.Num 0 ]} in
  let reply :=
    Learning.Answer None
      (Some (map (fun v => {| Learning.ts := 0; Learning.val := Some v |})
                 [17; 18; 16; 17; 19; 18])) in
  analyseSystem CONFIG store reply "now" = [].
Proof.
  intros store reply.
  apply (analyseSystem_skips CONFIG store reply "now").
  do 10 right. exists (Js.Num 2.5). split; [reflexivity |]. split; qdecide.
Defined.

(** X25.  A run of [analyseSystem] performs at most two writes and writes a
    number only to the recommended-slope datapoint.  That happens only at an
    outdoor temperature at or below the slope threshold, and the number is
    the current base curve raised by 0.1 (boiler adaptation below 0.1) or
    lowered by 0.1, rounded to one decimal: it differs from the current
    base curve by at most 0.15. *)
Theorem recommendation_step (cfg : Config) (store : gmap string Js.value)
        (reply : Learning.Reply) (jetzt : string) :
  (length (analyseSystem cfg store reply jetzt) <= 2)%nat
  /\ forall id q,
       In (id, Value q) (analyseSystem cfg store reply jetzt) ->
       exists aussenTemp basis adaption,
         store !! aussenTempId cfg = Some aussenTemp
         /\ store !! aktuelleHeizkurveId cfg = Some basis
         /\ store !! adaptiveHeizkurveId cfg = Some adaption
         /\ id = empfohleneSteilheitId cfg
         /\ Js.toNumber aussenTemp <= tempGrenzeSteilheit cfg
         /\ ((q = Js.toFixed 1 (Js.toNumber basis + 0.1)
              /\ Js.toNumber adaption < 0.1)
             \/ q = Js.toFixed 1 (Js.toNumber basis - 0.1))
         /\ Qabs (q - Js.toNumber basis) <= 0.15.
Proof.
  unfold analyseSystem.
  destruct (store !! svHeizperiodeId cfg) as [heiz |];
    [| split; [simpl; lia | intros ? ? []]].
  destruct (negb (Js.truthy heiz)); [split; [simpl; lia | intros ? ? []] |].
  destruct (store !! aussenTempId cfg) as [aussen |];
    [| split; [simpl; lia | intros ? ? []]].
  destruct (store !! aktuelleHeizkurveId cfg) as [basis |];
    [| split; [simpl; lia | intros ? ? []]].
  destruct (store !! adaptiveHeizkurveId cfg) as [adaption |];
    [| split; [simpl; lia | intros ? ? []]].
  destruct (queryHistory reply) as [h |];
    [| split; [simpl; lia | intros ? ? []]].
  destruct (length _ <? 5)%nat; [split; [simpl; lia | intros ? ? []] |].
  assert (Hup : Qabs (Js.toFixed 1 (Js.toNumber basis + 0.1)
                      - Js.toNumber basis) <= 0.15).
  { pose proof (toFixed1_error (Js.toNumber basis + 0.1)) as He.
    apply Qabs_Qle_condition in He. apply Qabs_Qle_condition. lra. }
  assert (Hdown : Qabs (Js.toFixed 1 (Js.toNumber basis - 0.1)
                        - Js.toNumber basis) <= 0.15).
  { pose proof (toFixed1_error (Js.toNumber basis - 0.1)) as He.
    apply Qabs_Qle_condition in He. apply Qabs_Qle_condition. lra. }
  destruct (Js.leb (Js.toNumber aussen) (tempGrenzeSteilheit cfg)) eqn:Ecold.
  - apply leb_le in Ecold.
    destruct (Js.ltb 15.0 _) eqn:Ehigh.
    + destruct (Js.ltb (Js.toNumber adaption) 0.1) eqn:Ead.
      * apply ltb_lt in Ead. split; [simpl; lia |].
        intros id q [[= <- <-] | [[=] | []]].
        exists aussen, basis, adaption. repeat split; auto.
      * split; [simpl; lia |]. intros id q [[=] | []].
    + destruct (Js.ltb _ 5.0).
      * split; [simpl; lia |].
        intros id q [[= <- <-] | [[=] | []]].
        exists aussen, basis, adaption. repeat split; auto.
      * split; [simpl; lia |]. intros id q [[=] | []].
  - destruct (Js.leb (tempGrenzeNiveau cfg) (Js.toNumber aussen)).
    + split; [simpl; lia |]. intros id q [[=] | []].
    + split; [simpl; lia | intros ? ? []].
Qed.

Lemma recommendation_step_witness :
  let store : gmap string Js.value :=
    {[ svHeizperiodeId CONFIG := Js.Bool true;
       aussenTempId CONFIG := Js.Num (-3);
       aktuelleHeizkurveId CONFIG := Js.Num 1.2;
       adaptiveHeizkurveId CONFIG := Js.Num 0 ]} in
  let reply :=
    Learning.Answer None
      (Some (map (fun v => {| Learning.ts := 0; Learning.val := Some v |})
                 [17; 18; 16; 0.5; 17; 19; 18])) in
  exists q,
    In (empfohleneSteilheitId CONFIG, Value q)
       (analyseSystem CONFIG store reply "now")
    /\ q = Qred 1.3
    /\ Qabs (q - 1.2) <= 0.15.
Proof.
  intros store reply. exists (Qred 1.3).
  assert (Hin : In (empfohleneSteilheitId CONFIG, Value (Qred 1.3))
                   (analyseSystem CONFIG store reply "now"))
    by (vm_compute; now left).
  split; [exact Hin |]. split; [reflexivity |].
  destruct (recommendation_step CONFIG store reply "now") as [_ H].
  destruct (H _ _ Hin) as (a & b & c & _ & Hb & _ & _ & _ & _ & Hq).
  assert (b = Js.Num 1.2) by (vm_compute in Hb; congruence). subst b.
  exact Hq.
Defined.

End HeatingCurveFacts.

(** ** From the learning script to the room script *)

Section LearnedFactorInRoom.

(** X26.  The factor written by a completed learning cycle is the factor the
    room script works with: it is at least 0.3, hence truthy, so the
    fallback 1.0 of the room script never replaces a learned value. *)
Theorem learned_factor_reaches_room (lcfg : Learning.Config)
        (rcfg : Room.Config) (store : gmap string Js.value)
        (reply : Learning.Reply) (e : Learning.Estimate) :
  Learning.simulationAktiv lcfg = false ->
  Room.idReglerleistung rcfg = Learning.reglerleistungId lcfg ->
  snd (Learning.main lcfg store reply) = Learning.Learned e ->
  let store' := fst (Learning.main lcfg store reply) in
  Room.learnedFactor (Room.collect rcfg store')
  = Js.toFixed 4 (Learning.estReglerleistung e)
  /\ 0.3 <= Room.learnedFactor (Room.collect rcfg store') <= 1.7.
Proof.
  intros Hsim Hid Hlearn store'.
  destruct (main_learned_inv lcfg store reply e Hlearn)
    as (h & _ & Hlen & He & Hstore).
  assert (Hrange : 0.3 <= Js.toFixed 4 (Learning.estReglerleistung e) <= 1.7).
  { assert (Hne : Js.sliceLast (Learning.stabilityCalculationHours lcfg * 2) h
                  <> []).
    { apply sliceLast_nonempty. intros ->. simpl in Hlen. lia. }
    destruct (estimate_nonempty lcfg _ (Learning.currentReglerleistung lcfg store)
                                Hne) as (st & _ & He').
    rewrite He in He'. injection He' as ->. simpl.
    apply toFixed4_range, hardLimits_range. }
  assert (Hread : Room.learnedFactor (Room.collect rcfg store')
                  = Js.toFixed 4 (Learning.estReglerleistung e)).
  { unfold Room.learnedFactor, Room.collect, Room.fetch. simpl.
    unfold store'. rewrite Hstore, Hid.
    unfold Learning.writeResults, Learning.setState. rewrite Hsim.
    rewrite lookup_insert_eq. unfold Js.orElse. simpl.
    destruct (Qeq_bool (Js.toFixed 4 (Learning.estReglerleistung e)) 0) eqn:E.
    - apply Qeq_bool_iff in E. lra.
    - reflexivity. }
  split; [exact Hread |]. rewrite Hread. exact Hrange.
Qed.

Lemma learned_factor_reaches_room_witness :
  let store : gmap string Js.value :=
    {[ Learning.svHeizperiodeId Learning.CONFIG := Js.Bool true;
       Learning.spreizungSensorId Learning.CONFIG := Js.Num 5.5;
       Learning.reglerleistungId Learning.CONFIG := Js.Num 1.2 ]} in
  let reply :=
    Learning.Answer None
      (Some (map (fun v => {| Learning.ts := 0; Learning.val := Some v |})
                 [18; 17; 19; 18; 18; 18])) in
  let store' := fst (Learning.main Learning.CONFIG store reply) in
  Room.learnedFactor (Room.collect Room.CONFIG store') = Qred 1.14
  /\ 0.3 <= Room.learnedFactor (Room.collect Room.CONFIG store') <= 1.7.
Proof.
  intros store reply store'.
  assert (Hl : exists e, snd (Learning.main Learning.CONFIG store reply)
                         = Learning.Learned e)
    by (eexists; vm_compute; reflexivity).
  destruct Hl as [e He].
  destruct (learned_factor_reaches_room Learning.CONFIG Room.CONFIG
              store reply e eq_refl eq_refl He) as [H1 H2].
  split; [vm_compute; reflexivity | exact H2].
Defined.

End LearnedFactorInRoom.
